(** * ARLBench: the DQN training and evaluation core

    A shallow embedding of [arlbench/algorithms/algorithm.py] and
    [arlbench/algorithms/dqn_vw.py].

    Conventions of the embedding.
    - JAX floating-point scalars are idealised as exact rationals ([Qc],
      canonical fractions, so that "the same number" is Leibniz equality).
      No statement below depends on rounding.
    - [jnp.power] with a real exponent has no rational counterpart; it is a
      parameter ([power]) of the definitions that use it.
    - A one-dimensional array is a [list]; a batch of Q-values is a list of
      rows.  Python [int]s are [Z]; counts that index lists are [nat].  An
      integer carried through a traced loop is a 32-bit integer: its
      arithmetic wraps around ([jnp.int32]).
    - The collaborators that live outside the two source files (random
      number generator, environment, network, optimiser, replay buffer) are
      interfaces: type classes whose operations the code calls. *)

From Stdlib Require Import ZArith QArith Qabs Qcanon List Bool Lia String.
From stdpp Require Import base list numbers gmap strings.
Import ListNotations.

(** ** Array primitives ([jax.numpy]) *)

Module jnp.

Abbreviation array := (list Qc).

(** A boolean used in arithmetic: [True] is 1 and [False] is 0. *)
Definition of_bool (b : bool) : Qc := if b then 1%Qc else 0%Qc.

(** An integer (an action index) used in floating arithmetic. *)
Definition of_nat (n : nat) : Qc := Q2Qc (inject_Z (Z.of_nat n)).

Definition abs (x : Qc) : Qc := Q2Qc (Qabs x).

Definition maximum (a b : Qc) : Qc :=
  if bool_decide (a < b)%Qc then b else a.

(** [x.max(axis=-1)] on one row.  (jnp raises on an empty row; the model
    returns 0 there.) *)
Definition max (row : array) : Qc :=
  match row with
  | [] => 0%Qc
  | x :: rest => fold_left maximum rest x
  end.

Fixpoint argmax_from (best_i : nat) (best : Qc) (i : nat) (row : array)
  : nat :=
  match row with
  | [] => best_i
  | x :: rest =>
      if bool_decide (best < x)%Qc
      then argmax_from i x (S i) rest
      else argmax_from best_i best (S i) rest
  end.

(** [x.argmax(axis=-1)] on one row: the index of the first maximum. *)
Definition argmax (row : array) : nat :=
  match row with
  | [] => 0%nat
  | x :: rest => argmax_from 0 x 1 rest
  end.

(** [x.take(indices)]: [x] is flattened (row-major) and read at each
    index.  jnp fills a read past the end with NaN; the model reads 0
    there.  An action index is below the number of actions, hence within
    the flattened array as soon as there is one row. *)
Definition take (x : list array) (indices : list nat) : array :=
  let flat := concat x in
  map (fun i => default 0%Qc (flat !! i)) indices.

(** [x[jnp.arange(len(x)), indices]]: one entry per row; an index past
    the end of a row is clamped to its last entry, as jnp gathers do. *)
Definition gather_rows (x : list array) (indices : list nat) : array :=
  zip_with
    (fun row i => default 0%Qc (row !! Nat.min i (length row - 1)))
    x indices.

Definition add : array -> array -> array := zip_with Qcplus.
Definition sub : array -> array -> array := zip_with Qcminus.
Definition mul : array -> array -> array := zip_with Qcmult.
Definition scale (v : array) (c : Qc) : array := map (fun x => (x * c)%Qc) v.

(** [1 - done] for a boolean array. *)
Definition one_minus (done : list bool) : array :=
  map (fun d => (1 - of_bool d)%Qc) done.

(** [x.mean()].  (The mean of an empty array is NaN in jnp and 0 here.) *)
Definition mean (v : array) : Qc :=
  (fold_right Qcplus 0 v / of_nat (length v))%Qc.

Definition square (v : array) : array := map (fun x => (x * x)%Qc) v.

Definition ones (n : nat) : array := replicate n 1%Qc.

Definition all (v : list bool) : bool := forallb id v.

(** The 32-bit integer an int32 operation leaves when its exact result is
    [z]: two's complement wrap-around into [-2^31 .. 2^31 - 1]. *)
Definition int32 (z : Z) : Z :=
  ((z + 2147483648) mod 4294967296 - 2147483648)%Z.

(** The values an int32 holds. *)
Definition is_int32 (z : Z) : Prop :=
  (-2147483648 <= z <= 2147483647)%Z.

End jnp.

(** [jax.lax.scan f init None length]: [f] is run [length] times on the
    carry and the per-step outputs are stacked. *)
Fixpoint scan {C Y : Type} (f : C -> C * Y) (init : C) (length : nat)
  : C * list Y :=
  match length with
  | O => (init, [])
  | S n =>
      let '(c, y) := f init in
      let '(c', ys) := scan f c n in
      (c', y :: ys)
  end.

(** [jax.lax.while_loop cond_fun body_fun init_val].  The loop of the
    source need not stop; the model runs it on fuel and answers [None]
    when the fuel runs out first. *)
Fixpoint while_loop {S : Type} (fuel : nat) (cond_fun : S -> bool)
  (body_fun : S -> S) (s : S) : option S :=
  if cond_fun s then
    match fuel with
    | O => None
    | Datatypes.S fuel' => while_loop fuel' cond_fun body_fun (body_fun s)
    end
  else Some s.

(** ** Exceptions and results *)

Inductive exception :=
| NotImplementedError (msg : string)
| IndexError
| ValueError (msg : string).

Inductive result (A : Type) :=
| Ok (a : A)
| Raise (e : exception).
Arguments Ok {A} a.
Arguments Raise {A} e.

Definition bind {A B : Type} (r : result A) (k : A -> result B) : result B :=
  match r with
  | Ok a => k a
  | Raise e => Raise e
  end.

Definition raises {A : Type} (r : result A) : bool :=
  match r with Ok _ => false | Raise _ => true end.

(** ** Action spaces

    The source tests the space against the [Discrete] and [Box] classes of
    three libraries; anything else is a space of another kind. *)

Inductive library := gymnax | gym | gymnasium.

Inductive space :=
| Discrete (lib : library) (n : nat)
| Box (lib : library) (shape : list nat)
| OtherSpace (repr : string).

(** ** Collaborator interfaces *)

(** Splittable random keys ([jax.random]). *)
Module random.
Class PRNG := {
  key : Type;
  split : key -> key * key;
  uniform : key -> Qc;
}.
End random.

(** The vectorised environment ([arlbench.environments.Environment]):
    [n_envs] copies stepped together; observations, rewards and done flags
    carry one entry per copy. *)
Module env.
Class Environment {P : random.PRNG} := {
  env_state : Type;
  observation : Type;
  info : Type;
  action_space : space;
  n_envs : nat;
  reset : random.key -> env_state * list observation;
  step : env_state -> list nat -> random.key ->
         env_state * (list observation * jnp.array * list bool * info);
  sample_action : random.key -> nat;
}.
End env.

(** ** [algorithm.py]: the abstract base class *)

Module Algorithm.

(** [Algorithm.action_type] (a property: it runs when it is read). *)
Definition action_type (action_space : space) : result (nat * bool) :=
  match action_space with
  | Discrete _ n => Ok (n, true)
  | Box _ shape =>
      match shape with
      | d :: _ => Ok (d, false)
      | [] => Raise IndexError
      end
  | OtherSpace repr =>
      Raise (NotImplementedError
               ("Only Discrete and Box action spaces are supported, got "
                ++ repr ++ ".")%string)
  end.

Section Episode.
Context {P : random.PRNG} {E : env.Environment}.
(** The runner state of the concrete algorithm and its abstract
    [predict] method. *)
Context {runner_state : Type}.
Variable rng_of : runner_state -> random.key.
Variable predict : runner_state -> list env.observation -> random.key -> list nat.

Definition episode_state : Type :=
  env.env_state * list env.observation * jnp.array * list bool * random.key
  * runner_state.

Definition ep_reward (s : episode_state) : jnp.array :=
  let '(_, _, reward, _, _, _) := s in reward.

Definition ep_done (s : episode_state) : list bool :=
  let '(_, _, _, done, _, _) := s in done.

Definition cond_fn (state : episode_state) : bool :=
  let '(_, _, _, done, _, _) := state in
  negb (jnp.all done).

(** What the environment answers when [body_fn] steps it from
    [state]: the per-environment rewards and done flags. *)
Definition env_answer (state : episode_state) : jnp.array * list bool :=
  let '(env_state, obs, _, _, rng, runner_state) := state in
  let '(rng, action_rng) := random.split rng in
  let action := predict runner_state obs action_rng in
  let '(rng, step_rng) := random.split rng in
  let '(_, (_, reward_, done_, _)) := env.step env_state action step_rng in
  (reward_, done_).

Definition body_fn (state : episode_state) : episode_state :=
  let '(env_state, obs, reward, done, rng, runner_state) := state in
  (* SELECT ACTION *)
  let '(rng, action_rng) := random.split rng in
  let action := predict runner_state obs action_rng in
  (* STEP ENV *)
  let '(rng, step_rng) := random.split rng in
  let '(env_state, (obs, reward_, done_, _)) :=
    env.step env_state action step_rng in
  (* Count rewards only for envs that are not already done *)
  let reward :=
    jnp.add reward
      (jnp.mul reward_ (map (fun d => jnp.of_bool (negb d)) done)) in
  let done := zip_with orb done done_ in
  (env_state, obs, reward, done, rng, runner_state).

Definition initial_state (runner_state0 : runner_state) : episode_state :=
  let '(rng, _rng) := random.split (rng_of runner_state0) in
  let '(_rng, reset_rng) := random.split _rng in
  let '(env_state, obs) := env.reset reset_rng in
  (env_state, obs, replicate env.n_envs 0%Qc, replicate env.n_envs false, _rng,
   runner_state0).

(** [_env_episode], with the fuel of its while loop. *)
Definition _env_episode (fuel : nat) (runner_state0 : runner_state)
  : option (runner_state * jnp.array) :=
  match while_loop fuel cond_fn body_fn (initial_state runner_state0) with
  | Some final_state => Some (runner_state0, ep_reward final_state)
  | None => None
  end.

(** The state of the evaluation batch after [k] steps of the loop
    body. *)
Definition after_steps (k : nat) (runner_state0 : runner_state)
  : episode_state :=
  Nat.iter k body_fn (initial_state runner_state0).

End Episode.

End Algorithm.


(** ** Timesteps and the replay buffer *)

Module common.

(** [arlbench.algorithms.common.TimeStep]: a named tuple, used both for one
    transition and, with arrays in its fields, for a batch of them. *)
Record TimeStep (O A R D : Type) := mkTimeStep {
  last_obs : O;
  obs : O;
  action : A;
  reward : R;
  done : D;
}.
Arguments mkTimeStep {O A R D}.
Arguments last_obs {O A R D}.
Arguments obs {O A R D}.
Arguments action {O A R D}.
Arguments reward {O A R D}.
Arguments done {O A R D}.

End common.

Module fbx.

(** Modelled from the spec: the sampling function installed in the buffer
    object ([arlbench/algorithms/buffers.py] and flashbax are not part of
    the sources).  "sampling is priority-weighted ... unless uniform
    sampling is explicitly configured, in which case indices are drawn
    uniformly": [prioritised_sample] is the sampler a prioritised buffer is
    made with, [uniform_sample] the one of [buffers.py], with the arguments
    the constructor binds. *)
Inductive sample_fn :=
| prioritised_sample (sample_batch_size : Z) (priority_exponent : Qc)
| uniform_sample (batch_size : Z) (sequence_length : Z) (period : Z).

Definition is_uniform (f : sample_fn) : bool :=
  match f with uniform_sample _ _ _ => true | prioritised_sample _ _ => false end.

(** The buffer object: its construction arguments and its [sample]
    function, which [replace] may swap. *)
Record buffer := mkBuffer {
  max_length : Z;
  min_length : Z;
  sample_batch_size : Z;
  add_sequences : bool;
  add_batch_size : nat;
  priority_exponent : Qc;
  sample : sample_fn;
}.

(** The buffer object that [fbx.make_prioritised_flat_buffer] builds from
    arguments it accepts: it samples by priority. *)
Definition prioritised_flat_buffer (max_length min_length
  sample_batch_size : Z) (add_sequences : bool) (add_batch_size : nat)
  (priority_exponent : Qc) : buffer :=
  mkBuffer max_length min_length sample_batch_size add_sequences
    add_batch_size priority_exponent
    (prioritised_sample sample_batch_size priority_exponent).

(** flashbax checks the arguments before it builds the buffer and raises
    on those it rejects.  Which arguments these are is flashbax's and not
    part of the sources: [rejects] is its verdict, the exception it raises
    if any. *)
Class Validation := {
  rejects : Z -> Z -> Z -> bool -> nat -> Qc -> option exception;
}.

(** [fbx.make_prioritised_flat_buffer]. *)
Definition make_prioritised_flat_buffer {V : Validation} (max_length
  min_length sample_batch_size : Z) (add_sequences : bool)
  (add_batch_size : nat) (priority_exponent : Qc) : result buffer :=
  match rejects max_length min_length sample_batch_size add_sequences
          add_batch_size priority_exponent with
  | Some e => Raise e
  | None =>
      Ok (prioritised_flat_buffer max_length min_length sample_batch_size
            add_sequences add_batch_size priority_exponent)
  end.

(** [buffer.replace(sample=sample_fn)]. *)
Definition replace_sample (b : buffer) (sample_fn0 : sample_fn) : buffer :=
  mkBuffer (max_length b) (min_length b) (sample_batch_size b)
    (add_sequences b) (add_batch_size b) (priority_exponent b) sample_fn0.

Section State.
Context {P : random.PRNG} {E : env.Environment}.

Definition transition : Type := common.TimeStep env.observation nat Qc bool.

Definition timestep_batch : Type :=
  common.TimeStep (list env.observation) (list nat) jnp.array (list bool).

(** The transitions of a batch, one per environment. *)
Fixpoint rows_of (lo o : list env.observation) (a : list nat)
  (r : jnp.array) (d : list bool) : list transition :=
  match lo, o, a, r, d with
  | lo1 :: lo', o1 :: o', a1 :: a', r1 :: r', d1 :: d' =>
      common.mkTimeStep lo1 o1 a1 r1 d1 :: rows_of lo' o' a' r' d'
  | _, _, _, _, _ => []
  end.

Definition rows (b : timestep_batch) : list transition :=
  rows_of (common.last_obs b) (common.obs b) (common.action b)
    (common.reward b) (common.done b).

Definition batch_of (l : list transition) : timestep_batch :=
  common.mkTimeStep (map common.last_obs l) (map common.obs l)
    (map common.action l) (map common.reward l) (map common.done l).

(** Modelled from the spec: the state of the replay buffer (flashbax is
    not part of the sources).  "circular storage of timesteps, current
    write index, per-slot priority, valid-length counter"; the capacity is
    the length of the storage. *)
Record BufferState := mkBufferState {
  experience : list transition;
  current_index : nat;
  priorities : jnp.array;
  valid_length : nat;
}.

Definition capacity (s : BufferState) : nat := length (experience s).

(** Modelled from the spec: [init(timestep)] "allocates storage sized to
    capacity, pre-filled by broadcasting one sample timestep".  No slot is
    written yet; the priorities start at 0. *)
Definition init (b : buffer) (t : transition) : BufferState :=
  let n := Z.to_nat (max_length b) in
  mkBufferState (replicate n t) 0 (replicate n 0%Qc) 0.

Fixpoint write (cap i : nat) (items : list transition)
  (storage : list transition) : list transition :=
  match items with
  | [] => storage
  | t :: rest => write cap (S i) rest (<[i mod cap := t]> storage)
  end.

(** Modelled from the spec: [add(state, timestep_batch)] "writes a batch
    of timesteps starting at [current_index], wrapping circularly; advances
    [current_index] by batch size modulo capacity".  It states no effect on
    the priorities, so they are left as they are. *)
Definition add (s : BufferState) (batch : timestep_batch) : BufferState :=
  let items := rows batch in
  mkBufferState
    (write (capacity s) (current_index s) items (experience s))
    ((current_index s + length items) mod capacity s)
    (priorities s)
    (Nat.min (capacity s) (valid_length s + length items)).

(** Modelled from the spec: [set_priorities(state, indices, weights)]
    "overwrites priority at given indices".  An index past the end of the
    priority array writes nothing. *)
Definition set_priorities (s : BufferState) (indices : list nat)
  (weights : jnp.array) : BufferState :=
  mkBufferState (experience s) (current_index s)
    (fold_left (fun p iw => <[fst iw := snd iw]> p) (zip indices weights)
       (priorities s))
    (valid_length s).

End State.

(** Modelled from the spec: how [sample(state, rng)] "draws [batch_size]
    indices" under either sampling function is left to the sampler. *)
Class Sampler {P : random.PRNG} {E : env.Environment} := {
  draw : sample_fn -> BufferState -> random.key -> list nat;
}.

(** [buffer.sample(state, rng).experience.first]: the sampled
    transitions, as a batch. *)
Definition sample_first {P : random.PRNG} {E : env.Environment}
  {S : Sampler} (b : buffer) (s : BufferState)
  (rng : random.key) : timestep_batch :=
  batch_of (omap (fun i => experience s !! i) (draw (sample b) s rng)).

End fbx.


(** ** [dqn_vw.py] *)

Module DQN.

(** The hyperparameters the core reads from [hpo_config].  [buffer_beta]
    is read only "if present". *)
Record HPOConfig := mkHPOConfig {
  buffer_size : Z;
  buffer_batch_size : Z;
  buffer_prio_sampling : bool;
  buffer_alpha : Qc;
  buffer_beta : option Qc;
  buffer_epsilon : Qc;
  lr : Qc;
  gamma : Qc;
  tau : Qc;
  epsilon : Qc;
  use_target_network : bool;
  train_frequency : Z;
  learning_starts : Z;
  target_network_update_freq : Z;
}.

Record NASConfig := mkNASConfig {
  activation : string;
  hidden_size : Z;
}.

Record EnvOptions := mkEnvOptions {
  n_envs : nat;
  n_total_timesteps : Z;
}.

(** The defaults declared in [get_hpo_config_space]. *)
Definition get_default_hpo_config : HPOConfig := {|
  buffer_size := 1000000;
  buffer_batch_size := 64;
  buffer_prio_sampling := false;
  buffer_alpha := Q2Qc (9 # 10);
  buffer_beta := Some (Q2Qc (9 # 10));
  buffer_epsilon := Q2Qc (1 # 100000);
  lr := Q2Qc (1 # 4000);
  gamma := Q2Qc (99 # 100);
  tau := 1%Qc;
  epsilon := Q2Qc (1 # 10);
  use_target_network := true;
  train_frequency := 4;
  learning_starts := 10000;
  target_network_update_freq := 100;
|}.

Definition get_default_nas_config : NASConfig :=
  {| activation := "tanh"; hidden_size := 64 |}.

(** [DQNTrainState]: [apply_fn] and [tx] are fixed functions and are not
    stored; parameters are the flattened leaves of the parameter tree. *)
Record DQNTrainState {opt_state_t : Type} := mkTrainState {
  step : Z;
  params : jnp.array;
  target_params : jnp.array;
  opt_state : opt_state_t;
}.
Arguments DQNTrainState : clear implicits.

(** The value network [arlbench.algorithms.models.Q], gradients and the
    optimiser. *)
Section Collaborators.
Context {P : random.PRNG} {E : env.Environment}.

(** Modelled from the spec: the value network is a "pure function mapping
    (parameters, observation) -> action-values" ([models.py] is not part of
    the sources); [Q] builds it from the action size and the architecture
    choices. *)
Class Models := {
  Q : nat -> bool -> string -> Z -> jnp.array -> env.observation -> jnp.array;
}.

(** [jax.grad] and the optimiser [optax.adam(lr, eps=1e-5)]. *)
Class Optimiser := {
  opt_state_t : Type;
  grad : (jnp.array -> Qc) -> jnp.array -> jnp.array;
  tx_update : Qc -> jnp.array -> opt_state_t -> jnp.array ->
              jnp.array * opt_state_t;
}.

End Collaborators.

Section Core.
Context {P : random.PRNG} {E : env.Environment} {M : Models}
  {O : Optimiser} {S : fbx.Sampler} {V : fbx.Validation}.
(** [jnp.power]. *)
Variable power : Qc -> Qc -> Qc.

Definition TrainState : Type := DQNTrainState opt_state_t.

Record DQNRunnerState := mkRunnerState {
  rng : random.key;
  train_state : TrainState;
  env_state : env.env_state;
  obs : list env.observation;
  global_step : Z;
}.

(** The algorithm object built by the constructor. *)
Record DQN := mkDQN {
  hpo_config : HPOConfig;
  nas_config : NASConfig;
  env_options : EnvOptions;
  network : jnp.array -> env.observation -> jnp.array;
  buffer : fbx.buffer;
  track_trajectories : bool;
  track_metrics : bool;
}.

(** [self.network.apply(params, observations)]: one row of action-values
    per observation. *)
Definition apply (self : DQN) (params0 : jnp.array)
  (observations : list env.observation) : list jnp.array :=
  map (network self params0) observations.

(** [DQN.__init__].  Reading [self.action_type] is where an unsupported
    action space raises; building the buffer is where rejected buffer
    arguments do. *)
Definition __init__ (hpo_config0 : HPOConfig) (options : EnvOptions)
  (nas_config0 : option NASConfig)
  (track_trajectories0 track_metrics0 : bool) : result DQN :=
  let nas_config1 := default get_default_nas_config nas_config0 in
  bind (Algorithm.action_type env.action_space) (fun at0 =>
    let '(action_size, discrete) := at0 in
    let network0 :=
      Q action_size discrete (activation nas_config1)
        (hidden_size nas_config1) in
    let priority_exponent :=
      match buffer_beta hpo_config0 with
      | Some beta => beta
      | None => 1%Qc
      end in
    bind
      (fbx.make_prioritised_flat_buffer
         (buffer_size hpo_config0)
         (buffer_batch_size hpo_config0)
         (buffer_batch_size hpo_config0)
         false
         (n_envs options)
         priority_exponent)
      (fun buffer0 =>
         let buffer1 :=
           if buffer_prio_sampling hpo_config0 then
             let sample_fn :=
               fbx.uniform_sample (buffer_batch_size hpo_config0) 2 1 in
             fbx.replace_sample buffer0 sample_fn
           else buffer0 in
         Ok (mkDQN hpo_config0 nas_config1 options network0 buffer1
               track_trajectories0 track_metrics0))).

(** [DQN.predict]. *)
Definition predict (self : DQN) (network_params : jnp.array)
  (obsv : list env.observation) (_ : random.key) : list nat :=
  let q_values := apply self network_params obsv in
  map jnp.argmax q_values.

(** [TrainState.apply_gradients]. *)
Definition apply_gradients (self : DQN) (ts : TrainState)
  (grads : jnp.array) : TrainState :=
  let '(updates, new_opt_state) :=
    tx_update (lr (hpo_config self)) grads (opt_state ts) (params ts) in
  mkTrainState _ (step ts + 1) (jnp.add (params ts) updates)
    (target_params ts) new_opt_state.

(** [DQN.update]. *)
Definition update (self : DQN) (train_state0 : TrainState)
  (observations : list env.observation) (actions : list nat)
  (next_observations : list env.observation) (rewards : jnp.array)
  (dones : list bool)
  : TrainState * Qc * jnp.array * jnp.array * opt_state_t :=
  let q_next_target :=
    if use_target_network (hpo_config self)
    then apply self (target_params train_state0) next_observations
    else apply self (params train_state0) next_observations in
  let q_next_target := map jnp.max q_next_target in
  let next_q_value :=
    jnp.add rewards
      (jnp.mul (jnp.scale (jnp.one_minus dones) (gamma (hpo_config self)))
         q_next_target) in
  let mse_loss (params0 : jnp.array) : Qc * jnp.array :=
    let q_pred := apply self params0 observations in
    let q_pred := jnp.gather_rows q_pred actions in
    (jnp.mean (jnp.square (jnp.sub q_pred next_q_value)), q_pred) in
  let '(loss_value, q_pred) := mse_loss (params train_state0) in
  let grads := grad (fun p => fst (mse_loss p)) (params train_state0) in
  let train_state1 := apply_gradients self train_state0 grads in
  (train_state1, loss_value, q_pred, grads, opt_state train_state1).

(** The stacked per-step outputs of the rollout, and the metric built from
    them. *)
Definition step_output : Type :=
  list env.observation * list nat * jnp.array * list bool * env.info
  * jnp.array.

Definition out_action (y : step_output) : list nat :=
  let '(_, action0, _, _, _, _) := y in action0.

Definition out_td_error (y : step_output) : jnp.array :=
  let '(_, _, _, _, _, td_error) := y in td_error.

(** What the environment answered at that step. *)
Definition out_env_answer (y : step_output)
  : list env.observation * jnp.array * list bool * env.info :=
  let '(obsv, _, reward0, done0, info0, _) := y in
  (obsv, reward0, done0, info0).

Record Transition := mkTransition {
  t_done : list (list bool);
  t_action : list (list nat);
  t_q_pred : list jnp.array;
  t_reward : list jnp.array;
  t_obs : list (list env.observation);
  t_info : list env.info;
}.

Inductive metric :=
| metric_trajectories (loss : Qc) (grads : jnp.array) (t : Transition)
    (td_error : list jnp.array)
| metric_metrics (loss : Qc) (grads : jnp.array) (q_pred : jnp.array)
    (td_error : list jnp.array)
| metric_None.

Definition rollout_carry : Type :=
  list env.observation * env.env_state * Z * fbx.BufferState.

Definition carry_env_state (c : rollout_carry) : env.env_state :=
  let '(_, env_state0, _, _) := c in env_state0.

Definition carry_global_step (c : rollout_carry) : Z :=
  let '(_, _, global_step0, _) := c in global_step0.

Definition carry_buffer_state (c : rollout_carry) : fbx.BufferState :=
  let '(_, _, _, buffer_state) := c in buffer_state.

(** The closures of [_update_step].  Each takes as arguments the variables
    of the enclosing function that it reads: [rng] and [_rng] are the two
    keys split at the top of [_update_step]; [train_state0] and [last_obs0]
    are the values those variables hold while the rollout runs. *)

Definition random_action (self : DQN) (rng0 : random.key) : list nat :=
  replicate (n_envs (env_options self)) (env.sample_action rng0).

Definition greedy_action (self : DQN) (train_state0 : TrainState)
  (last_obs0 : list env.observation) : list nat :=
  let q_values := apply self (params train_state0) last_obs0 in
  map jnp.argmax q_values.

(** The branch of the epsilon-greedy [cond]. *)
Definition explores (self : DQN) (rng0 : random.key) : bool :=
  bool_decide (random.uniform rng0 < epsilon (hpo_config self))%Qc.

Definition no_target_td (self : DQN) (train_state0 : TrainState)
  (obsv : list env.observation) : list nat :=
  map jnp.argmax (apply self (params train_state0) obsv).

Definition target_td (self : DQN) (train_state0 : TrainState)
  (obsv : list env.observation) : list nat :=
  map jnp.argmax (apply self (target_params train_state0) obsv).

Definition take_step (self : DQN) (rng0 _rng : random.key)
  (train_state0 : TrainState) (last_obs0 : list env.observation)
  (carry : rollout_carry) : rollout_carry * step_output :=
  let '(obsv, env_state0, global_step0, buffer_state) := carry in
  let action0 :=
    if explores self rng0
    then random_action self rng0
    else greedy_action self train_state0 last_obs0 in
  let '(env_state1, (obsv, reward0, done0, info0)) :=
    env.step env_state0 action0 _rng in
  let q_next_target :=
    if use_target_network (hpo_config self)
    then target_td self train_state0 obsv
    else no_target_td self train_state0 obsv in
  let td_error :=
    jnp.sub
      (jnp.add reward0
         (jnp.mul
            (jnp.scale (jnp.one_minus done0) (gamma (hpo_config self)))
            (map jnp.of_nat q_next_target)))
      (jnp.take (apply self (params train_state0) last_obs0) action0) in
  let timestep := common.mkTimeStep last_obs0 obsv action0 reward0 done0 in
  let buffer_state := fbx.add buffer_state timestep in
  (* PER: compute indices of newly added buffer elements *)
  let transition_weight :=
    map (fun e => power (jnp.abs e + buffer_epsilon (hpo_config self))%Qc
                    (buffer_alpha (hpo_config self)))
      td_error in
  let added_indices :=
    map (fun i => (i + fbx.current_index buffer_state)%nat)
      (seq 0 (length obsv)) in
  let buffer_state :=
    fbx.set_priorities buffer_state added_indices transition_weight in
  (* [global_step] is an int32 carry of the scan *)
  let global_step1 :=
    jnp.int32 (global_step0 + Z.of_nat (n_envs (env_options self))) in
  ((obsv, env_state1, global_step1, buffer_state),
   (obsv, action0, reward0, done0, info0, td_error)).

Definition do_update (self : DQN) (rng0 : random.key)
  (train_state0 : TrainState) (buffer_state : fbx.BufferState)
  : TrainState * Qc * jnp.array * jnp.array * opt_state_t :=
  let batch := fbx.sample_first (buffer self) buffer_state rng0 in
  update self train_state0 (common.last_obs batch) (common.action batch)
    (common.obs batch) (common.reward batch) (common.done batch).

Definition dont_update (self : DQN) (train_state0 : TrainState)
  (_ : fbx.BufferState)
  : TrainState * Qc * jnp.array * jnp.array * opt_state_t :=
  (train_state0,
   jnp.mean (jnp.square (jnp.sub [0%Qc] [0%Qc])),
   jnp.ones (Z.to_nat (buffer_batch_size (hpo_config self))),
   params train_state0,
   opt_state train_state0).

(** [optax.incremental_update(new_tensors, old_tensors, step_size)]. *)
Definition incremental_update (new_tensors old_tensors : jnp.array)
  (step_size : Qc) : jnp.array :=
  zip_with (fun new old => (step_size * new + (1 - step_size) * old)%Qc)
    new_tensors old_tensors.

Definition target_update (self : DQN) (train_state0 : TrainState)
  : TrainState :=
  mkTrainState _ (step train_state0) (params train_state0)
    (incremental_update (params train_state0) (target_params train_state0)
       (tau (hpo_config self)))
    (opt_state train_state0).

Definition dont_target_update (train_state0 : TrainState) : TrainState :=
  train_state0.

(** The two gates, read on the step counter the rollout returns.  [%] is
    the modulo of Python and jnp, which is [Z.modulo] for a frequency of 1
    or more. *)
Definition update_gate (self : DQN) (global_step0 : Z) : bool :=
  (learning_starts (hpo_config self) <? global_step0)%Z
  && (global_step0 mod train_frequency (hpo_config self) =? 0)%Z.

Definition target_gate (self : DQN) (global_step0 : Z) : bool :=
  (learning_starts (hpo_config self) <? global_step0)%Z
  && (global_step0 mod target_network_update_freq (hpo_config self) =? 0)%Z.

(** The rollout: [jax.lax.scan(take_step, ..., None, train_frequency)]. *)
Definition rollout (self : DQN) (runner_state : DQNRunnerState)
  (buffer_state : fbx.BufferState) : rollout_carry * list step_output :=
  let '(rng0, _rng) := random.split (rng runner_state) in
  scan
    (take_step self rng0 _rng (train_state runner_state)
       (obs runner_state))
    (obs runner_state, env_state runner_state,
     global_step runner_state, buffer_state)
    (Z.to_nat (train_frequency (hpo_config self))).

(** The values of the local variables of [_update_step] when it builds
    its result. *)
Record locals := mkLocals {
  l_runner_state : DQNRunnerState;
  l_buffer_state : fbx.BufferState;
  l_loss : Qc;
  l_q_pred : jnp.array;
  l_grads : jnp.array;
  l_opt_state : opt_state_t;
  l_outputs : list step_output;
}.

Definition _update_step_locals (self : DQN)
  (carry : DQNRunnerState * fbx.BufferState) : locals :=
  let '(runner_state, buffer_state) := carry in
  let train_state0 := train_state runner_state in
  let '(rng0, _rng) := random.split (rng runner_state) in
  let '((last_obs1, env_state1, global_step1, buffer_state1), outputs) :=
    rollout self runner_state buffer_state in
  let '(train_state1, loss, q_pred, grads, opt_state1) :=
    if update_gate self global_step1
    then do_update self rng0 train_state0 buffer_state1
    else dont_update self train_state0 buffer_state1 in
  (* [target_update] reads [train_state] when it is called, that is after
     the assignment above. *)
  let train_state2 :=
    if target_gate self global_step1
    then target_update self train_state1
    else dont_target_update train_state1 in
  let runner_state1 :=
    mkRunnerState rng0 train_state2 env_state1 last_obs1 global_step1 in
  mkLocals runner_state1 buffer_state1 loss q_pred grads opt_state1 outputs.

(** The [Transition] of the trajectory metric, from the stacked outputs. *)
Definition stack_transition (ys : list step_output) (q_pred : jnp.array)
  : Transition :=
  mkTransition
    (map (fun y => let '(_, _, _, d, _, _) := y in d) ys)
    (map out_action ys)
    [q_pred]
    (map (fun y => let '(_, _, r, _, _, _) := y in r) ys)
    (map (fun y => let '(o, _, _, _, _, _) := y in o) ys)
    (map (fun y => let '(_, _, _, _, i, _) := y in i) ys).

Definition _update_step (self : DQN)
  (carry : DQNRunnerState * fbx.BufferState)
  : (DQNRunnerState * fbx.BufferState) * metric :=
  let l := _update_step_locals self carry in
  let td_error := map out_td_error (l_outputs l) in
  let metric0 :=
    if track_trajectories self then
      metric_trajectories (l_loss l) (l_grads l)
        (stack_transition (l_outputs l) (l_q_pred l))
        td_error
    else if track_metrics self then
      metric_metrics (l_loss l) (l_grads l) (l_q_pred l) td_error
    else metric_None in
  ((l_runner_state l, l_buffer_state l), metric0).

(** [DQN.train]: [jax.lax.scan] of [_update_step], as many times as
    [(n_total_timesteps // train_frequency) // n_envs] says ([//] is
    [Z.div] for a positive divisor). *)
Definition n_iterations (self : DQN) : nat :=
  Z.to_nat
    ((n_total_timesteps (env_options self)
      / train_frequency (hpo_config self))
     / Z.of_nat (n_envs (env_options self))).

Definition train (self : DQN) (runner_state : DQNRunnerState)
  (buffer_state : fbx.BufferState)
  : (DQNRunnerState * fbx.BufferState) * list metric :=
  scan (_update_step self) (runner_state, buffer_state) (n_iterations self).

End Core.

End DQN.


(** ** The claimed TD error

    The TD error of one transition as the specification words it:
    [reward + (1 - done) * gamma * max_a Q_target(next_obs, a)
     - Q_online(prev_obs, action_taken)], with [Q_target] the target
    network when [use_target_network] is set and the online network
    otherwise. *)
Definition td_error_claimed {P : random.PRNG} {E : env.Environment}
  (q_online q_target : env.observation -> jnp.array) (gamma0 : Qc)
  (prev_obs next_obs : env.observation) (action_taken : nat)
  (reward0 : Qc) (done0 : bool) : Qc :=
  (reward0
   + (1 - jnp.of_bool done0) * gamma0 * jnp.max (q_target next_obs)
   - default 0 (q_online prev_obs !! action_taken))%Qc.

(** An environment keeps the batch shape when every answer of [step]
    carries one reward and one done flag per environment. *)
Definition keeps_shape {P : random.PRNG} {E : env.Environment} : Prop :=
  forall s a k,
    let '(_, (_, reward_, done_, _)) := env.step s a k in
    length reward_ = env.n_envs /\ length done_ = env.n_envs.

(** An evaluation state is shaped when its accumulated rewards and its
    done mask carry one entry per environment. *)
Definition shaped {P : random.PRNG} {E : env.Environment}
  {runner_state : Type} (s : Algorithm.episode_state (runner_state := runner_state))
  : Prop :=
  length (Algorithm.ep_reward s) = env.n_envs
  /\ length (Algorithm.ep_done s) = env.n_envs.

(** The loss a metric reports, if it reports one. *)
Definition metric_loss {P : random.PRNG} {E : env.Environment} (m : DQN.metric) : option Qc :=
  match m with
  | DQN.metric_trajectories loss _ _ _ => Some loss
  | DQN.metric_metrics loss _ _ _ => Some loss
  | DQN.metric_None => None
  end.

(** ** Stub collaborators

    Deterministic stand-ins for the collaborators, small enough to run the
    definitions above by computation. *)

Module Stub.

(** The rational [a / b]. *)
Definition frac (a : Z) (b : positive) : Qc := Q2Qc (a # b).

(** Keys are numbers; a key splits into its two children in a binary
    tree; the uniform draw of key [k] is [(k mod 4) / 4]. *)
#[export] Instance prng : random.PRNG := {|
  random.key := nat;
  random.split := fun k => (2 * k + 1, 2 * k + 2)%nat;
  random.uniform := fun k => Q2Qc (Z.of_nat (k mod 4) # 4);
|}.

(** The argument checks of a flat buffer: the priority exponent lies in
    [[0, 1]], a sampled batch fits the buffer, the minimum length in time
    steps fits it too, and the buffer holds two time steps or more. *)
#[export] Instance validation : fbx.Validation := {|
  fbx.rejects := fun max_length min_length sample_batch_size _
                     add_batch_size priority_exponent =>
    if bool_decide (priority_exponent < 0)%Qc
       || bool_decide (1 < priority_exponent)%Qc
    then Some (ValueError "Priority exponent must be in the range [0, 1].")
    else if (max_length <? sample_batch_size)%Z
    then Some (ValueError
                 "sample_batch_size must be less than or equal to max_length")
    else if (max_length <? min_length / Z.of_nat add_batch_size + 1)%Z
    then Some (ValueError "min_length used is too large")
    else if (max_length / Z.of_nat add_batch_size <? 2)%Z
    then Some (ValueError "max_length//add_batch_size must be at least 2")
    else None;
|}.

(** [n] copies of a clock.  The state is the number of steps taken; every
    copy observes the new time and is paid reward 1 at every step, also
    after it is done; copy [i] reports done from step [i + 2] on. *)
Definition environment (sp : space) (n : nat) : env.Environment := {|
  env.env_state := nat;
  env.observation := nat;
  env.info := unit;
  env.action_space := sp;
  env.n_envs := n;
  env.reset := fun _ => (0%nat, replicate n 0%nat);
  env.step := fun t _ _ =>
    (S t,
     (replicate n (S t), replicate n 1%Qc,
      map (fun i => (i + 2 <=? S t)%nat) (seq 0 n), tt));
  env.sample_action := fun k => (k mod 2)%nat;
|}.

(** The network reads its action-values off its parameters, whatever the
    observation. *)
Definition models (sp : space) (n : nat)
  : @DQN.Models prng (environment sp n) := {|
  DQN.Q := fun action_size _ _ _ params0 _ => firstn action_size params0;
|}.

(** Plain gradient descent on a constant gradient. *)
Definition optimiser : DQN.Optimiser := {|
  DQN.opt_state_t := unit;
  DQN.grad := fun _ p => map (fun _ => 1%Qc) p;
  DQN.tx_update := fun lr0 g s _ => (map (fun x => (- lr0 * x)%Qc) g, s);
|}.

(** The sampler draws the first [batch_size] slots. *)
Definition sampler (sp : space) (n : nat)
  : @fbx.Sampler prng (environment sp n) := {|
  fbx.draw := fun f _ _ =>
    match f with
    | fbx.prioritised_sample b _ => seq 0 (Z.to_nat b)
    | fbx.uniform_sample b _ _ => seq 0 (Z.to_nat b)
    end;
|}.

Definition two_clocks : env.Environment := environment (Discrete gymnax 2) 2.
Definition one_clock : env.Environment := environment (Discrete gymnax 2) 1.
Definition box_clock : env.Environment := environment (Box gymnasium [3%nat]) 1.

(** A small configuration: a buffer of four slots, updates after the
    second step. *)
Definition small_config : DQN.HPOConfig := {|
  DQN.buffer_size := 4;
  DQN.buffer_batch_size := 1;
  DQN.buffer_prio_sampling := false;
  DQN.buffer_alpha := 1%Qc;
  DQN.buffer_beta := Some 1%Qc;
  DQN.buffer_epsilon := frac 1 100000;
  DQN.lr := frac 1 4000;
  DQN.gamma := frac 99 100;
  DQN.tau := frac 1 2;
  DQN.epsilon := 0%Qc;
  DQN.use_target_network := true;
  DQN.train_frequency := 2;
  DQN.learning_starts := 1;
  DQN.target_network_update_freq := 4;
|}.

(** [small_config] with a later start of learning. *)
Definition patient_config : DQN.HPOConfig := {|
  DQN.buffer_size := 4;
  DQN.buffer_batch_size := 1;
  DQN.buffer_prio_sampling := false;
  DQN.buffer_alpha := 1%Qc;
  DQN.buffer_beta := Some 1%Qc;
  DQN.buffer_epsilon := frac 1 100000;
  DQN.lr := frac 1 4000;
  DQN.gamma := frac 99 100;
  DQN.tau := frac 1 2;
  DQN.epsilon := 0%Qc;
  DQN.use_target_network := true;
  DQN.train_frequency := 2;
  DQN.learning_starts := 10;
  DQN.target_network_update_freq := 4;
|}.

(** The declared defaults with prioritised sampling switched on. *)
Definition prio_config : DQN.HPOConfig := {|
  DQN.buffer_size := 1000000;
  DQN.buffer_batch_size := 64;
  DQN.buffer_prio_sampling := true;
  DQN.buffer_alpha := frac 9 10;
  DQN.buffer_beta := Some (frac 9 10);
  DQN.buffer_epsilon := frac 1 100000;
  DQN.lr := frac 1 4000;
  DQN.gamma := frac 99 100;
  DQN.tau := 1%Qc;
  DQN.epsilon := frac 1 10;
  DQN.use_target_network := true;
  DQN.train_frequency := 4;
  DQN.learning_starts := 10000;
  DQN.target_network_update_freq := 100;
|}.

Definition options (n : nat) : DQN.EnvOptions :=
  {| DQN.n_envs := n; DQN.n_total_timesteps := 8 |}.

(** [jnp.power] at the exponent 1 of [small_config]. *)
Definition power_1 (x _ : Qc) : Qc := x.

(** The agent the constructor builds on one clock with two actions, and
    its states: online action-values (5, 3), target action-values (2, 7),
    an empty buffer of four slots, the clock at 0. *)
Definition agent (hpo_config0 : DQN.HPOConfig) : DQN.DQN (E := one_clock) :=
  DQN.mkDQN (E := one_clock) hpo_config0 DQN.get_default_nas_config
    (options 1)
    (DQN.Q (Models := models (Discrete gymnax 2) 1) 2 true "tanh" 64)
    (fbx.prioritised_flat_buffer 4 1 1 false 1 1) false true.

Definition ts0 : DQN.TrainState (O := optimiser) :=
  DQN.mkTrainState _ 0 [frac 5 1; frac 3 1] [frac 2 1; frac 7 1] tt.

Definition bs0 : fbx.BufferState (E := one_clock) :=
  fbx.init (E := one_clock)
    (fbx.prioritised_flat_buffer 4 1 1 false 1 1)
    (common.mkTimeStep 0%nat 0%nat 0%nat 0%Qc false).

Definition rs_at (global_step0 : Z)
  : DQN.DQNRunnerState (E := one_clock) (O := optimiser) :=
  DQN.mkRunnerState (E := one_clock) 0%nat ts0 0%nat [0%nat] global_step0.

(** The greedy policy of [ts0] on two clocks, as the evaluator's
    [predict]. *)
Definition greedy (params0 : list Qc) (obsv : list nat) (_ : nat) : list nat :=
  map (fun _ => jnp.argmax params0) obsv.

End Stub.

#[global] Existing Instance Stub.validation.


(** ** [Algorithm.eval] *)

Module Evaluation.

(** What a call of [eval] comes to: the rewards, the [ZeroDivisionError] of
    [num_eval_episodes / self.env.n_envs] without environments, or an
    episode loop that outlives its fuel. *)
Inductive outcome :=
| Returns (rewards : list Qc)
| ZeroDivisionError
| OutOfFuel.

(** [int(jnp.ceil(a / b))] for a positive [b].  The source takes the
    ceiling of the quotient as a float32; that is the exact ceiling written
    here as long as [a] does not exceed [2^24 = 16777216], up to which
    float32 holds every integer and a quotient that is not an integer never
    rounds down to one.  Beyond, the float32 quotient can lose its
    remainder. *)
Definition ceil_div (a b : Z) : Z := (- ((- a) / b))%Z.

(** [x[:stop]]: the first [stop] entries, or all but the last [-stop] for
    a negative [stop]. *)
Definition slice_to {A : Type} (x : list A) (stop : Z) : list A :=
  if (0 <=? stop)%Z then firstn (Z.to_nat stop) x
  else firstn (length x - Z.to_nat (- stop)) x.

Section Eval.
Context {P : random.PRNG} {E : env.Environment} {runner_state : Type}.
Variable rng_of : runner_state -> random.key.
Variable predict : runner_state -> list env.observation -> random.key -> list nat.

(** [jax.lax.scan(self._env_episode, runner_state, None, n_evals)], every
    episode on the same fuel. *)
Fixpoint episodes (fuel : nat) (runner_state0 : runner_state)
  (n_evals : nat) : option (runner_state * list jnp.array) :=
  match n_evals with
  | O => Some (runner_state0, [])
  | S n =>
      match Algorithm._env_episode rng_of predict fuel runner_state0 with
      | None => None
      | Some (runner_state1, reward0) =>
          match episodes fuel runner_state1 n with
          | None => None
          | Some (runner_state2, rewards) =>
              Some (runner_state2, reward0 :: rewards)
          end
      end
  end.

(** The number of evaluation batches. *)
Definition n_evals_of (num_eval_episodes : Z) : nat :=
  if (Z.of_nat env.n_envs <? num_eval_episodes)%Z
  then Z.to_nat (ceil_div num_eval_episodes (Z.of_nat env.n_envs))
  else 1%nat.

(** [Algorithm.eval]. *)
Definition eval (fuel : nat) (runner_state0 : runner_state)
  (num_eval_episodes : Z) : outcome :=
  if ((Z.of_nat env.n_envs <? num_eval_episodes)%Z
      && (env.n_envs =? 0)%nat)
  then ZeroDivisionError
  else
    match episodes fuel runner_state0 (n_evals_of num_eval_episodes) with
    | Some (_, rewards) => Returns (slice_to (concat rewards) num_eval_episodes)
    | None => OutOfFuel
    end.

(** What the environment answers to environment [i] in the step taken
    after [j] steps of an evaluation batch. *)
Definition answered_reward (runner_state0 : runner_state) (j i : nat) : Qc :=
  default 0%Qc
    (fst (Algorithm.env_answer predict
            (Algorithm.after_steps rng_of predict j runner_state0)) !! i).

Definition answered_done (runner_state0 : runner_state) (j i : nat) : bool :=
  default false
    (snd (Algorithm.env_answer predict
            (Algorithm.after_steps rng_of predict j runner_state0)) !! i).

(** Environment [i] has reported done in one of the first [k] steps. *)
Definition finished_before (runner_state0 : runner_state) (k i : nat) : bool :=
  existsb (fun j => answered_done runner_state0 j i) (seq 0 k).

(** The rewards of environment [i] over the first [k] steps, counting the
    steps it entered unfinished. *)
Fixpoint counted_reward (runner_state0 : runner_state) (k i : nat) : Qc :=
  match k with
  | O => 0%Qc
  | S j =>
      (counted_reward runner_state0 j i
       + answered_reward runner_state0 j i
         * jnp.of_bool (negb (finished_before runner_state0 j i)))%Qc
  end.

End Eval.

End Evaluation.

(** ** [DQN.init] and [DQNTrainState.create_with_opt_state] *)

Module Setup.

Section Setup.
Context {P : random.PRNG} {E : env.Environment} {O : DQN.Optimiser}.

(** What initialisation calls besides the collaborators of training.
    Modelled from the spec: the network interface "init(rng,
    sample_observation) -> params" ([models.py] is not part of the
    sources); [PRNGKey] is [jax.random.PRNGKey] and [tx_init] the [init]
    of the optimiser. *)
Class Initialisers := {
  PRNGKey : Z -> random.key;
  network_init : random.key -> list env.observation -> list Qc;
  tx_init : list Qc -> DQN.opt_state_t;
}.

Context {I : Initialisers}.

(** [DQNTrainState.create_with_opt_state]. *)
Definition create_with_opt_state (params0 target_params0 : list Qc)
  (opt_state0 : option DQN.opt_state_t) : DQN.TrainState :=
  let opt_state1 :=
    match opt_state0 with
    | None => tx_init params0
    | Some s => s
    end in
  DQN.mkTrainState _ 0 params0 target_params0 opt_state1.

(** [DQN.init].  The dummy interaction is needed only when one of the
    buffer state and the two parameter sets is missing; reading the first
    entry of an empty answer fails. *)
Definition init (self : DQN.DQN) (rng0 : random.key)
  (buffer_state0 : option fbx.BufferState)
  (network_params0 target_params0 : option (list Qc))
  (opt_state0 : option DQN.opt_state_t)
  : result (DQN.DQNRunnerState * fbx.BufferState) :=
  let '(rng1, _rng) := random.split rng0 in
  let '(env_state0, obs0) := env.reset rng1 in
  let dummy_rng := PRNGKey 0 in
  let _action :=
    replicate (DQN.n_envs (DQN.env_options self)) (env.sample_action rng1) in
  let '(_, (_obs, _reward, _done, _)) :=
    env.step env_state0 _action dummy_rng in
  bind
    match buffer_state0 with
    | Some b => Ok b
    | None =>
        match _obs !! 0%nat, _action !! 0%nat, _reward !! 0%nat,
              _done !! 0%nat with
        | Some o, Some a, Some r, Some d =>
            let _timestep := common.mkTimeStep o o a r d in
            Ok (fbx.init (DQN.buffer self) _timestep)
        | _, _, _, _ => Raise IndexError
        end
    end
    (fun buffer_state1 =>
       let '(_, _rng) := random.split rng1 in
       let network_params1 :=
         match network_params0 with
         | Some p => p
         | None => network_init _rng _obs
         end in
       let target_params1 :=
         match target_params0 with
         | Some p => p
         | None => network_init _rng _obs
         end in
       let train_state0 :=
         create_with_opt_state network_params1 target_params1 opt_state0 in
       let '(rng2, _rng) := random.split rng1 in
       let global_step0 := 0%Z in
       Ok (DQN.mkRunnerState rng2 train_state0 env_state0 obs0 global_step0,
           buffer_state1)).

End Setup.

End Setup.

(** ** [autorl/objectives.py] *)

Module objectives.

(** The specification an objective declares. *)
Record spec := mkSpec {
  name : string;
  upper : option Qc;
  lower : option Qc;
  optimize : string;
}.

(** The part of a training result the reward objectives read. *)
Record TrainResult := mkTrainResult {
  eval_rewards : list (list Qc);
}.

(** The caller's [objectives] dictionary.  It is one mutable object that
    every wrapper writes into, so a call is given the dictionary and
    answers with it, also when it raises. *)
Abbreviation objectives_dict := (gmap string Qc).

Section Wrappers.
(** The arguments and the first component of the result of the wrapped
    training function. *)
Context {Args R : Type}.

Definition TrainFunc : Type :=
  Args -> objectives_dict -> result (R * TrainResult) * objectives_dict.

(** [x[-1]]. *)
Definition last_entry {A : Type} (x : list A) : result A :=
  match last x with
  | Some a => Ok a
  | None => Raise IndexError
  end.

Definition RewardMean_KEY : string := "reward_mean".
Definition RewardMean_RANK : nat := 2.

Definition RewardMean_get_spec : spec :=
  mkSpec RewardMean_KEY None None "upper".

(** [RewardMean.__call__]: the wrapper it returns. *)
Definition RewardMean (train_func : TrainFunc) (optimize_objectives : string)
  : TrainFunc :=
  fun args objectives0 =>
    let '(result0, objectives1) := train_func args objectives0 in
    match result0 with
    | Raise e => (Raise e, objectives1)
    | Ok (x, train_result) =>
        match last_entry (eval_rewards train_result) with
        | Raise e => (Raise e, objectives1)
        | Ok row =>
            let reward_mean := jnp.mean row in
            let reward_mean :=
              if bool_decide (optimize_objectives
                              <> optimize RewardMean_get_spec)
              then (reward_mean * -(1))%Qc
              else reward_mean in
            (Ok (x, train_result),
             <[RewardMean_KEY := reward_mean]> objectives1)
        end
    end.

Definition RewardStd_KEY : string := "reward_std".
Definition RewardStd_RANK : nat := 2.

Definition RewardStd_get_spec : spec :=
  mkSpec RewardStd_KEY None (Some 0%Qc) "lower".

(** [RewardStd.__call__]: the wrapper it returns. *)
Definition RewardStd (train_func : TrainFunc) (optimize_objectives : string)
  : TrainFunc :=
  fun args objectives0 =>
    let '(result0, objectives1) := train_func args objectives0 in
    match result0 with
    | Raise e => (Raise e, objectives1)
    | Ok (x, train_result) =>
        match last_entry (eval_rewards train_result) with
        | Raise e => (Raise e, objectives1)
        | Ok row =>
            let reward_std := jnp.mean row in
            let reward_std :=
              if bool_decide (optimize_objectives
                              <> optimize RewardStd_get_spec)
              then (reward_std * -(1))%Qc
              else reward_std in
            (Ok (x, train_result),
             <[RewardStd_KEY := reward_std]> objectives1)
        end
    end.

End Wrappers.

End objectives.

(** More stub collaborators. *)

Module StubMore.

(** Initial parameters (0, k) from key [k]; the optimiser state is the
    unit. *)
Definition initialisers (E : env.Environment (P := Stub.prng))
  : Setup.Initialisers (P := Stub.prng) (E := E) (O := Stub.optimiser) :=
  Setup.Build_Initialisers (P := Stub.prng) (E := E) (O := Stub.optimiser)
    (fun z => Z.to_nat z) (fun k _ => [0%Qc; jnp.of_nat k]) (fun _ => tt).

(** A training function that reports two evaluations and counts its calls
    under the key "calls". *)
Definition trained : objectives.TrainFunc (Args := unit) (R := nat) :=
  fun _ d =>
    (Ok (7%nat,
         objectives.mkTrainResult
           [[Stub.frac 1 1; Stub.frac 1 1]; [Stub.frac 2 1; Stub.frac 3 1]]),
     <["calls" := (default 0%Qc (d !! "calls") + 1)%Qc]> d).

End StubMore.

(** * Properties *)

(** ** Loops *)

Lemma int32_range (z : Z) : jnp.is_int32 (jnp.int32 z).
Proof.
  unfold jnp.is_int32, jnp.int32.
  pose proof (Z.mod_pos_bound (z + 2147483648) 4294967296 ltac:(lia)). lia.
Qed.

Lemma int32_small (z : Z) : jnp.is_int32 z -> jnp.int32 z = z.
Proof.
  unfold jnp.is_int32, jnp.int32. intros Hz.
  rewrite Z.mod_small; lia.
Qed.

Lemma int32_add_l (a b : Z) : jnp.int32 (jnp.int32 a + b) = jnp.int32 (a + b).
Proof.
  unfold jnp.int32. f_equal.
  replace ((a + 2147483648) mod 4294967296 - 2147483648 + b + 2147483648)%Z
    with ((a + 2147483648) mod 4294967296 + b)%Z by lia.
  rewrite Zplus_mod_idemp_l. f_equal. lia.
Qed.

Section ScanFacts.
Context {C Y : Type}.
Variable f : C -> C * Y.

Lemma scan_succ (c : C) (n : nat) :
  scan f c (S n) =
  (fst (scan f (fst (f c)) n), snd (f c) :: snd (scan f (fst (f c)) n)).
Proof.
  simpl. destruct (f c) as [c1 y]. simpl.
  destruct (scan f c1 n) as [c2 ys]. reflexivity.
Qed.

Lemma scan_length (n : nat) : forall c, length (snd (scan f c n)) = n.
Proof.
  induction n as [|n IH]; intros c.
  - reflexivity.
  - rewrite scan_succ. simpl. by rewrite IH.
Qed.

(** A 32-bit counter that every step raises by [d] stands, after [n]
    steps, at the wrapped sum. *)
Lemma scan_int32_counter (g : C -> Z) (d : Z) :
  (forall c, jnp.is_int32 (g c) -> g (fst (f c)) = jnp.int32 (g c + d)) ->
  forall n c,
    jnp.is_int32 (g c) ->
    g (fst (scan f c n)) = jnp.int32 (g c + Z.of_nat n * d).
Proof.
  intros Hstep n. induction n as [|n IH]; intros c Hc.
  - cbn [scan fst]. rewrite Z.mul_0_l, Z.add_0_r. symmetry.
    by apply int32_small.
  - rewrite scan_succ. cbn [fst]. rewrite IH.
    + rewrite (Hstep c Hc), int32_add_l. f_equal. lia.
    + rewrite (Hstep c Hc). apply int32_range.
Qed.

(** Every output of the loop satisfies what every step's output does. *)
Lemma scan_outputs (Q : Y -> Prop) :
  (forall c, Q (snd (f c))) ->
  forall n c, Forall Q (snd (scan f c n)).
Proof.
  intros Hstep n. induction n as [|n IH]; intros c.
  - constructor.
  - rewrite scan_succ. cbn [snd]. constructor; [apply Hstep | apply IH].
Qed.

End ScanFacts.

Lemma while_loop_iter {S : Type} (cond_fun : S -> bool) (body_fun : S -> S) :
  forall fuel s s',
    while_loop fuel cond_fun body_fun s = Some s' ->
    exists n, s' = Nat.iter n body_fun s /\ cond_fun s' = false.
Proof.
  induction fuel as [|fuel IH]; intros s s'; simpl;
    destruct (cond_fun s) eqn:Hc; intros Hrun; try discriminate.
  - injection Hrun as <-. by exists 0%nat.
  - apply IH in Hrun as (n & -> & Hstop).
    exists (Datatypes.S n). split; [|done].
    by rewrite Nat.iter_succ_r.
  - injection Hrun as <-. by exists 0%nat.
Qed.

(** ** The step counter *)

Section Counter.
Context {P : random.PRNG} {E : env.Environment} {M : DQN.Models}
  {O : DQN.Optimiser} {S : fbx.Sampler}.
Variable power : Qc -> Qc -> Qc.
Variable self : DQN.DQN.

Lemma take_step_global_step rng0 _rng ts last_obs0 c :
  DQN.carry_global_step (fst (DQN.take_step power self rng0 _rng ts last_obs0 c))
  = jnp.int32
      (DQN.carry_global_step c
       + Z.of_nat (DQN.n_envs (DQN.env_options self))).
Proof.
  unfold DQN.take_step. destruct c as [[[obsv es] gs] bs].
  destruct (env.step es _ _rng) as [es1 [[[o r] d] i]]. reflexivity.
Qed.

Lemma rollout_global_step rs bs :
  jnp.is_int32 (DQN.global_step rs) ->
  DQN.carry_global_step (fst (DQN.rollout power self rs bs))
  = jnp.int32
      (DQN.global_step rs
       + Z.of_nat (Z.to_nat (DQN.train_frequency (DQN.hpo_config self)))
         * Z.of_nat (DQN.n_envs (DQN.env_options self))).
Proof.
  intros Hrange. unfold DQN.rollout.
  destruct (random.split (DQN.rng rs)) as [rng0 _rng].
  rewrite (scan_int32_counter _ DQN.carry_global_step
             (Z.of_nat (DQN.n_envs (DQN.env_options self)))).
  - reflexivity.
  - intros c _. apply take_step_global_step.
  - exact Hrange.
Qed.

Lemma locals_global_step rs bs :
  DQN.global_step
    (DQN.l_runner_state (DQN._update_step_locals power self (rs, bs)))
  = DQN.carry_global_step (fst (DQN.rollout power self rs bs)).
Proof.
  unfold DQN._update_step_locals.
  destruct (random.split (DQN.rng rs)) as [rng0 _rng].
  destruct (DQN.rollout power self rs bs) as [[[[o es] gs] b] outs].
  destruct (if DQN.update_gate self gs then _ else _) as [[[[t l] q] g] os].
  reflexivity.
Qed.

Lemma update_step_global_step (c : DQN.DQNRunnerState * fbx.BufferState) :
  jnp.is_int32 (DQN.global_step (fst c)) ->
  DQN.global_step (fst (fst (DQN._update_step power self c)))
  = jnp.int32
      (DQN.global_step (fst c)
       + Z.of_nat (Z.to_nat (DQN.train_frequency (DQN.hpo_config self)))
         * Z.of_nat (DQN.n_envs (DQN.env_options self))).
Proof.
  destruct c as [rs bs]. unfold DQN._update_step. cbn [fst].
  rewrite locals_global_step. apply rollout_global_step.
Qed.

(** The counter after [N] outer iterations, wrapped. *)
Lemma iterations_wrapped_global_step (rs : DQN.DQNRunnerState)
  (bs : fbx.BufferState) (N : nat) :
  (0 <= DQN.train_frequency (DQN.hpo_config self))%Z ->
  jnp.is_int32 (DQN.global_step rs) ->
  DQN.global_step (fst (fst (scan (DQN._update_step power self) (rs, bs) N)))
  = jnp.int32
      (DQN.global_step rs
       + Z.of_nat N
         * (DQN.train_frequency (DQN.hpo_config self)
            * Z.of_nat (DQN.n_envs (DQN.env_options self)))).
Proof.
  intros Hfreq Hrange.
  rewrite (scan_int32_counter _ (fun c => DQN.global_step (fst c))
             (DQN.train_frequency (DQN.hpo_config self)
              * Z.of_nat (DQN.n_envs (DQN.env_options self)))%Z).
  - reflexivity.
  - intros c Hc. rewrite update_step_global_step by exact Hc.
    by rewrite Z2Nat.id.
  - exact Hrange.
Qed.

(** C7, as the code has it: the step counter is a 32-bit integer.  After
    [N] outer training iterations it stands at
    [initial_step + N * train_frequency * n_envs] wrapped into the int32
    range, whatever the initial value an int32 can hold; it equals
    [initial_step + N * train_frequency * n_envs] itself as long as that
    sum does not exceed [2^31 - 1].  Every one of the [train_frequency]
    rollout steps advances it by the number of parallel environments. *)
Theorem global_step_after_iterations (rs : DQN.DQNRunnerState)
  (bs : fbx.BufferState) (N : nat) :
  (0 <= DQN.train_frequency (DQN.hpo_config self))%Z ->
  jnp.is_int32 (DQN.global_step rs) ->
  let total :=
    (DQN.global_step rs
     + Z.of_nat N * DQN.train_frequency (DQN.hpo_config self)
       * Z.of_nat (DQN.n_envs (DQN.env_options self)))%Z in
  let reached :=
    DQN.global_step
      (fst (fst (scan (DQN._update_step power self) (rs, bs) N))) in
  reached = jnp.int32 total
  /\ ((total <= 2147483647)%Z -> reached = total).
Proof.
  intros Hfreq Hrange. cbn zeta.
  rewrite iterations_wrapped_global_step by done.
  rewrite Z.mul_assoc. split; [reflexivity|].
  intros Hfits. apply int32_small. unfold jnp.is_int32 in *.
  assert (0 <= Z.of_nat N * DQN.train_frequency (DQN.hpo_config self)
               * Z.of_nat (DQN.n_envs (DQN.env_options self)))%Z by nia.
  lia.
Qed.

(** The same for a whole call of [train]. *)
Corollary train_global_step (rs : DQN.DQNRunnerState) (bs : fbx.BufferState) :
  (0 <= DQN.train_frequency (DQN.hpo_config self))%Z ->
  jnp.is_int32 (DQN.global_step rs) ->
  DQN.global_step (fst (fst (DQN.train power self rs bs)))
  = jnp.int32
      (DQN.global_step rs
       + Z.of_nat (DQN.n_iterations self)
         * (DQN.train_frequency (DQN.hpo_config self)
            * Z.of_nat (DQN.n_envs (DQN.env_options self)))).
Proof.
  intros Hfreq Hrange. unfold DQN.train.
  by apply iterations_wrapped_global_step.
Qed.

End Counter.

(** ** The gates of the outer iteration *)

Lemma incremental_update_hard_copy (new_tensors : jnp.array) :
  forall old_tensors,
    length new_tensors = length old_tensors ->
    DQN.incremental_update new_tensors old_tensors 1 = new_tensors.
Proof.
  induction new_tensors as [|x new_tensors IH]; intros [|y old_tensors] Hlen;
    try discriminate; [reflexivity|].
  unfold DQN.incremental_update in *. cbn [zip_with]. f_equal.
  - ring.
  - apply IH. simpl in Hlen. lia.
Qed.

Lemma zero_loss : jnp.mean (jnp.square (jnp.sub [0%Qc] [0%Qc])) = 0%Qc.
Proof. apply Qc_is_canon. reflexivity. Qed.

Section Gates.
Context {P : random.PRNG} {E : env.Environment} {O : DQN.Optimiser}.
Variable power : Qc -> Qc -> Qc.
Variable self : DQN.DQN.

Lemma update_gate_spec (g : Z) :
  DQN.update_gate self g = true <->
  (DQN.learning_starts (DQN.hpo_config self) < g
   /\ g mod DQN.train_frequency (DQN.hpo_config self) = 0)%Z.
Proof.
  unfold DQN.update_gate.
  rewrite andb_true_iff, Z.ltb_lt, Z.eqb_eq. reflexivity.
Qed.

Lemma target_gate_spec (g : Z) :
  DQN.target_gate self g = true <->
  (DQN.learning_starts (DQN.hpo_config self) < g
   /\ g mod DQN.target_network_update_freq (DQN.hpo_config self) = 0)%Z.
Proof.
  unfold DQN.target_gate.
  rewrite andb_true_iff, Z.ltb_lt, Z.eqb_eq. reflexivity.
Qed.

(** Neither branch of the update gate touches the target parameters. *)
Lemma update_keeps_target ts o a o' r d :
  DQN.target_params (fst (fst (fst (fst (DQN.update self ts o a o' r d)))))
  = DQN.target_params ts.
Proof.
  unfold DQN.update, DQN.apply_gradients.
  destruct (DQN.tx_update _ _ _ _) as [updates new_opt_state]. reflexivity.
Qed.

(** C9: the target synchroniser sets every target parameter to
    [tau * online + (1 - tau) * target] and leaves the rest of the
    TrainState alone; with [tau = 1], on parameter sets of the same shape,
    the new target parameters are the online parameters (hard copy). *)
Theorem target_update_blends (ts : DQN.TrainState) :
  let tau := DQN.tau (DQN.hpo_config self) in
  let ts' := DQN.target_update self ts in
  (forall i online target,
      DQN.params ts !! i = Some online ->
      DQN.target_params ts !! i = Some target ->
      DQN.target_params ts' !! i
      = Some (tau * online + (1 - tau) * target)%Qc)
  /\ DQN.params ts' = DQN.params ts
  /\ DQN.opt_state ts' = DQN.opt_state ts
  /\ (tau = 1%Qc ->
      length (DQN.params ts) = length (DQN.target_params ts) ->
      DQN.target_params ts' = DQN.params ts).
Proof.
  cbn zeta. repeat split.
  - intros i online target Hon Htg.
    unfold DQN.target_update, DQN.incremental_update.
    cbn [DQN.target_params].
    rewrite lookup_zip_with, Hon. cbn. rewrite Htg. reflexivity.
  - intros Htau Hlen. unfold DQN.target_update. cbn. rewrite Htau.
    by apply incremental_update_hard_copy.
Qed.

Section WithSampler.
Context {S : fbx.Sampler}.

(** C5: the target parameters of the TrainState an outer iteration returns
    are those of the TrainState it received, unless the step counter that
    results from the rollout exceeds [learning_starts] and is a multiple of
    [target_network_update_freq]; then, and only then, they are the target
    synchroniser's blend of the (possibly just updated) online parameters
    into the previous target parameters. *)
Theorem target_params_change_only_at_gate (rs : DQN.DQNRunnerState)
  (bs : fbx.BufferState) :
  let rs' := fst (fst (DQN._update_step power self (rs, bs))) in
  let g := DQN.global_step rs' in
  let gate :=
    (DQN.learning_starts (DQN.hpo_config self) < g
     /\ g mod DQN.target_network_update_freq (DQN.hpo_config self) = 0)%Z in
  (~ gate ->
   DQN.target_params (DQN.train_state rs')
   = DQN.target_params (DQN.train_state rs))
  /\ (gate ->
      DQN.target_params (DQN.train_state rs')
      = DQN.incremental_update (DQN.params (DQN.train_state rs'))
          (DQN.target_params (DQN.train_state rs))
          (DQN.tau (DQN.hpo_config self))).
Proof.
  cbn zeta. rewrite <- target_gate_spec.
  unfold DQN._update_step. cbn [fst]. unfold DQN._update_step_locals.
  destruct (random.split (DQN.rng rs)) as [rng0 _rng].
  destruct (DQN.rollout power self rs bs) as [[[[o es] gs] b] outs].
  assert (Hkeep :
    DQN.target_params
      (fst (fst (fst (fst
         (if DQN.update_gate self gs
          then DQN.do_update self rng0 (DQN.train_state rs) b
          else DQN.dont_update self (DQN.train_state rs) b)))))
    = DQN.target_params (DQN.train_state rs)).
  { destruct (DQN.update_gate self gs); [apply update_keeps_target | done]. }
  destruct (if DQN.update_gate self gs then _ else _) as [[[[t l] q] gr] os].
  cbn [fst] in Hkeep. cbn.
  destruct (DQN.target_gate self gs); split; intros Hg;
    try (exfalso; by auto); cbn; by rewrite ?Hkeep.
Qed.

End WithSampler.

(** C6: when the update gate, read on the step counter that results from
    the rollout, is closed, the iteration samples no batch (whatever
    sampler the buffer carries, the iteration returns the same result),
    hands back the online parameters, the optimiser state and the step of
    the TrainState unchanged, and reports the loss 0. *)
Theorem closed_update_gate_is_a_no_op (S1 S2 : fbx.Sampler)
  (rs : DQN.DQNRunnerState) (bs : fbx.BufferState) :
  let l := DQN._update_step_locals (S := S1) power self (rs, bs) in
  let rs' := fst (fst (DQN._update_step (S := S1) power self (rs, bs))) in
  let g := DQN.global_step rs' in
  ~ (DQN.learning_starts (DQN.hpo_config self) < g
     /\ g mod DQN.train_frequency (DQN.hpo_config self) = 0)%Z ->
  DQN._update_step (S := S2) power self (rs, bs)
  = DQN._update_step (S := S1) power self (rs, bs)
  /\ DQN.params (DQN.train_state rs') = DQN.params (DQN.train_state rs)
  /\ DQN.opt_state (DQN.train_state rs') = DQN.opt_state (DQN.train_state rs)
  /\ DQN.step (DQN.train_state rs') = DQN.step (DQN.train_state rs)
  /\ DQN.l_loss l = 0%Qc
  /\ (forall x,
         metric_loss (snd (DQN._update_step (S := S1) power self (rs, bs)))
         = Some x -> x = 0%Qc).
Proof.
  cbn zeta. rewrite <- update_gate_spec.
  unfold DQN._update_step. cbn [fst snd].
  unfold DQN._update_step_locals.
  destruct (random.split (DQN.rng rs)) as [rng0 _rng].
  destruct (DQN.rollout power self rs bs) as [[[[o es] gs] b] outs].
  destruct (DQN.update_gate self gs) eqn:Hgate.
  - destruct (DQN.do_update (S := S1) _ _ _ _) as [[[[t l] q] gr] os].
    cbn. rewrite Hgate. intros Hclosed. by destruct Hclosed.
  - intros _. unfold DQN.dont_update. rewrite zero_loss.
    destruct (DQN.target_gate self gs); cbn; repeat split; try done;
      destruct (DQN.track_trajectories self), (DQN.track_metrics self);
      cbn; congruence.
Qed.

End Gates.

(** ** Randomness within one rollout *)

Section Rollout.
Context {P : random.PRNG} {E : env.Environment} {O : DQN.Optimiser}.
Variable power : Qc -> Qc -> Qc.
Variable self : DQN.DQN.
Variables rng0 _rng : random.key.
Variable ts : DQN.TrainState.
Variable last_obs0 : list env.observation.

(** The action every step of the rollout takes. *)
Let action0 : list nat :=
  if DQN.explores self rng0
  then DQN.random_action self rng0
  else DQN.greedy_action self ts last_obs0.

Let take_step := DQN.take_step power self rng0 _rng ts last_obs0.

Lemma take_step_action c : DQN.out_action (snd (take_step c)) = action0.
Proof.
  unfold take_step, DQN.take_step. destruct c as [[[obsv es] gs] bs].
  destruct (env.step es _ _rng) as [es1 [[[o r] d] i]]. reflexivity.
Qed.

Lemma take_step_env c :
  DQN.carry_env_state (fst (take_step c))
  = fst (env.step (DQN.carry_env_state c) action0 _rng)
  /\ DQN.out_env_answer (snd (take_step c))
     = snd (env.step (DQN.carry_env_state c) action0 _rng).
Proof.
  unfold take_step, DQN.take_step. destruct c as [[[obsv es] gs] bs].
  cbn [DQN.carry_env_state]. fold action0.
  destruct (env.step es action0 _rng) as [es1 [[[o r] d] i]]. done.
Qed.

Lemma scan_take_step_env n : forall c j y,
  snd (scan take_step c n) !! j = Some y ->
  DQN.out_env_answer y
  = snd (env.step
           (Nat.iter j (fun s => fst (env.step s action0 _rng))
              (DQN.carry_env_state c))
           action0 _rng).
Proof.
  induction n as [|n IH]; intros c j y; [done|].
  rewrite scan_succ. cbn [snd]. destruct j as [|j]; intros Hy.
  - cbn in Hy. injection Hy as <-. apply take_step_env.
  - rewrite Nat.iter_succ_r, <- (proj1 (take_step_env c)).
    apply IH. exact Hy.
Qed.

End Rollout.

Section RolloutOfIteration.
Context {P : random.PRNG} {E : env.Environment} {O : DQN.Optimiser}.
Variable power : Qc -> Qc -> Qc.
Variable self : DQN.DQN.

(** C10: within one outer iteration the key of the epsilon-greedy coin
    flip and the key that steps the environment are the two halves of one
    split made before the rollout, and every one of the [train_frequency]
    rollout steps uses these same two keys.  Hence the explore-or-exploit
    branch is the same at every step: all steps take the random action or
    all take the greedy one, and the environment is stepped each time with
    that action and the same key. *)
Theorem rollout_reuses_both_keys (rs : DQN.DQNRunnerState)
  (bs : fbx.BufferState) :
  let rng0 := fst (random.split (DQN.rng rs)) in
  let _rng := snd (random.split (DQN.rng rs)) in
  let action0 :=
    if DQN.explores self rng0
    then DQN.random_action self rng0
    else DQN.greedy_action self (DQN.train_state rs) (DQN.obs rs) in
  let outputs := snd (DQN.rollout power self rs bs) in
  length outputs = Z.to_nat (DQN.train_frequency (DQN.hpo_config self))
  /\ Forall (fun y => DQN.out_action y = action0) outputs
  /\ forall j y,
       outputs !! j = Some y ->
       DQN.out_env_answer y
       = snd (env.step
                (Nat.iter j (fun s => fst (env.step s action0 _rng))
                   (DQN.env_state rs))
                action0 _rng).
Proof.
  cbn zeta. unfold DQN.rollout.
  destruct (random.split (DQN.rng rs)) as [rng0 _rng]. cbn [fst snd].
  split; [apply scan_length|]. split.
  - apply scan_outputs. intros c. apply take_step_action.
  - intros j y Hy. by apply (scan_take_step_env _ _ _ _ _ _ _ _ _ _ Hy).
Qed.

End RolloutOfIteration.

(** ** The evaluator *)

Lemma lookup_map {A B : Type} (f : A -> B) (l : list A) (i : nat) :
  map f l !! i = f <$> (l !! i).
Proof.
  revert i. induction l as [|x l IH]; intros [|i]; cbn; done.
Qed.

Lemma all_lookup (v : list bool) (i : nat) :
  jnp.all v = true -> (i < length v)%nat -> v !! i = Some true.
Proof.
  unfold jnp.all. rewrite forallb_forall. intros Hall Hi.
  destruct (lookup_lt_is_Some_2 v i Hi) as [b Hb]. rewrite Hb. f_equal.
  apply (Hall b). apply list_elem_of_In. by eapply list_elem_of_lookup_2.
Qed.

Section Evaluator.
Context {P : random.PRNG} {E : env.Environment} {runner_state : Type}.
Variable rng_of : runner_state -> random.key.
Variable predict : runner_state -> list env.observation -> random.key -> list nat.
Hypothesis shape : keeps_shape.

Let state : Type := Algorithm.episode_state (runner_state := runner_state).
Let body_fn : state -> state := Algorithm.body_fn predict.
Let after_steps := Algorithm.after_steps rng_of predict.

(** One step of the loop body, seen at environment [i]. *)
Lemma body_fn_at (s : state) (i : nat) r d r_ d_ :
  Algorithm.ep_reward s !! i = Some r ->
  Algorithm.ep_done s !! i = Some d ->
  fst (Algorithm.env_answer predict s) !! i = Some r_ ->
  snd (Algorithm.env_answer predict s) !! i = Some d_ ->
  Algorithm.ep_reward (body_fn s) !! i
  = Some (r + r_ * jnp.of_bool (negb d))%Qc
  /\ Algorithm.ep_done (body_fn s) !! i = Some (d || d_).
Proof.
  unfold body_fn, Algorithm.body_fn, Algorithm.env_answer.
  destruct s as [[[[[es o] rw] dn] k] rs]. cbn [Algorithm.ep_reward Algorithm.ep_done].
  destruct (random.split k) as [k1 action_rng].
  destruct (random.split k1) as [k2 step_rng].
  destruct (env.step es _ step_rng) as [es1 [[[o1 reward_] done_] i1]].
  cbn [fst snd Algorithm.ep_reward Algorithm.ep_done].
  intros Hr Hd Hr_ Hd_. unfold jnp.add, jnp.mul.
  rewrite !lookup_zip_with, lookup_map, Hr, Hd, Hr_, Hd_. done.
Qed.

Lemma body_fn_shaped (s : state) : shaped s -> shaped (body_fn s).
Proof.
  unfold shaped, body_fn, Algorithm.body_fn.
  destruct s as [[[[[es o] rw] dn] k] rs]. cbn [Algorithm.ep_reward Algorithm.ep_done].
  destruct (random.split k) as [k1 action_rng].
  destruct (random.split k1) as [k2 step_rng].
  pose proof (shape es (predict rs o action_rng) step_rng) as Hs.
  destruct (env.step es _ step_rng) as [es1 [[[o1 reward_] done_] i1]].
  cbn [Algorithm.ep_reward Algorithm.ep_done].
  unfold jnp.add, jnp.mul.
  rewrite !length_zip_with, length_map. lia.
Qed.

Lemma answer_shaped (s : state) :
  length (fst (Algorithm.env_answer predict s)) = env.n_envs
  /\ length (snd (Algorithm.env_answer predict s)) = env.n_envs.
Proof.
  unfold Algorithm.env_answer.
  destruct s as [[[[[es o] rw] dn] k] rs].
  destruct (random.split k) as [k1 action_rng].
  destruct (random.split k1) as [k2 step_rng].
  pose proof (shape es (predict rs o action_rng) step_rng) as Hs.
  destruct (env.step es _ step_rng) as [es1 [[[o1 reward_] done_] i1]].
  exact Hs.
Qed.

Lemma after_steps_shaped (k : nat) rs0 : shaped (after_steps k rs0).
Proof.
  induction k as [|k IH].
  - unfold after_steps, Algorithm.after_steps, Algorithm.initial_state, shaped.
    cbn [Nat.iter nat_rect].
    destruct (random.split (rng_of rs0)) as [k1 k2].
    destruct (random.split k2) as [k3 reset_rng].
    destruct (env.reset reset_rng) as [es o].
    cbn [Algorithm.ep_reward Algorithm.ep_done].
    by rewrite !length_replicate.
  - apply body_fn_shaped in IH. exact IH.
Qed.

(** A step leaves a finished environment's reward and flag alone. *)
Lemma body_fn_frozen (s : state) (i : nat) :
  shaped s ->
  Algorithm.ep_done s !! i = Some true ->
  Algorithm.ep_reward (body_fn s) !! i = Algorithm.ep_reward s !! i
  /\ Algorithm.ep_done (body_fn s) !! i = Some true.
Proof.
  intros [Hlr Hld] Hdone.
  assert (Hi : (i < env.n_envs)%nat).
  { rewrite <- Hld. by eapply lookup_lt_Some. }
  destruct (answer_shaped s) as [Har Had].
  destruct (lookup_lt_is_Some_2 (Algorithm.ep_reward s) i) as [r Hr]; [lia|].
  destruct (lookup_lt_is_Some_2 (fst (Algorithm.env_answer predict s)) i)
    as [r_ Hr_]; [lia|].
  destruct (lookup_lt_is_Some_2 (snd (Algorithm.env_answer predict s)) i)
    as [d_ Hd_]; [lia|].
  destruct (body_fn_at s i r true r_ d_ Hr Hdone Hr_ Hd_) as [-> ->].
  split; [|done]. rewrite Hr. f_equal. cbn. ring.
Qed.

Lemma frozen_from (rs0 : runner_state) (i a : nat) :
  Algorithm.ep_done (after_steps a rs0) !! i = Some true ->
  forall b, (a <= b)%nat ->
    Algorithm.ep_reward (after_steps b rs0) !! i
    = Algorithm.ep_reward (after_steps a rs0) !! i
    /\ Algorithm.ep_done (after_steps b rs0) !! i = Some true.
Proof.
  intros Hdone b Hab. induction Hab as [|b Hab [IHr IHd]]; [done|].
  destruct (body_fn_frozen (after_steps b rs0) i (after_steps_shaped b rs0) IHd)
    as [Hr Hd].
  split; [|exact Hd]. etrans; [exact Hr | exact IHr].
Qed.

(** C8: once an environment of the evaluation batch reports done at some
    step, its accumulated reward is the same after every later step,
    whatever rewards the environment emits afterwards, and it is the
    reward the episode returns.  Every step adds the reward of an
    environment times the negation of its done mask and ORs the reported
    flag into the mask. *)
Theorem finished_environment_reward_is_frozen (rs0 : runner_state)
  (k i : nat) :
  snd (Algorithm.env_answer predict (after_steps k rs0)) !! i = Some true ->
  (forall j, (S k <= j)%nat ->
     Algorithm.ep_reward (after_steps j rs0) !! i
     = Algorithm.ep_reward (after_steps (S k) rs0) !! i
     /\ Algorithm.ep_done (after_steps j rs0) !! i = Some true)
  /\ (forall fuel rs' total,
        Algorithm._env_episode rng_of predict fuel rs0 = Some (rs', total) ->
        total !! i = Algorithm.ep_reward (after_steps (S k) rs0) !! i)
  /\ (forall j r d r_ d_,
        Algorithm.ep_reward (after_steps j rs0) !! i = Some r ->
        Algorithm.ep_done (after_steps j rs0) !! i = Some d ->
        fst (Algorithm.env_answer predict (after_steps j rs0)) !! i = Some r_ ->
        snd (Algorithm.env_answer predict (after_steps j rs0)) !! i = Some d_ ->
        Algorithm.ep_reward (after_steps (S j) rs0) !! i
        = Some (r + r_ * jnp.of_bool (negb d))%Qc
        /\ Algorithm.ep_done (after_steps (S j) rs0) !! i = Some (d || d_)).
Proof.
  intros Hreport.
  assert (Hi : (i < env.n_envs)%nat).
  { rewrite <- (proj2 (answer_shaped (after_steps k rs0))).
    by eapply lookup_lt_Some. }
  assert (Hmask : Algorithm.ep_done (after_steps (S k) rs0) !! i = Some true).
  { destruct (after_steps_shaped k rs0) as [Hlr Hld].
    destruct (answer_shaped (after_steps k rs0)) as [Har _].
    destruct (lookup_lt_is_Some_2 (Algorithm.ep_reward (after_steps k rs0)) i)
      as [r Hr]; [lia|].
    destruct (lookup_lt_is_Some_2 (Algorithm.ep_done (after_steps k rs0)) i)
      as [d Hd]; [lia|].
    destruct (lookup_lt_is_Some_2
                (fst (Algorithm.env_answer predict (after_steps k rs0))) i)
      as [r_ Hr_]; [lia|].
    destruct (body_fn_at _ i r d r_ true Hr Hd Hr_ Hreport) as [_ Hd'].
    rewrite orb_true_r in Hd'. exact Hd'. }
  split; [|split].
  - intros j Hj. by apply frozen_from.
  - intros fuel rs' total. unfold Algorithm._env_episode.
    destruct (while_loop _ _ _ _) as [final|] eqn:Hrun; [|done].
    intros [= _ <-].
    apply while_loop_iter in Hrun as (n & -> & Hstop).
    change (Nat.iter n _ _) with (after_steps n rs0) in *.
    destruct (Nat.le_gt_cases (S k) n) as [Hn|Hn].
    + by apply frozen_from.
    + assert (Hall : Algorithm.ep_done (after_steps n rs0) !! i = Some true).
      { apply all_lookup.
        - unfold Algorithm.cond_fn in Hstop.
          destruct (after_steps n rs0) as [[[[[es o] rw] dn] kk] rs1].
          cbn. by apply negb_false_iff.
        - by rewrite (proj2 (after_steps_shaped n rs0)). }
      symmetry. apply (frozen_from rs0 i n Hall). lia.
  - intros j r d r_ d_. apply body_fn_at.
Qed.

End Evaluator.

(** ** Construction *)

(** The constructor installs the uniform sampler exactly when
    [buffer_prio_sampling] is set. *)
Lemma init_installs_uniform_iff_flag {P : random.PRNG} {E : env.Environment}
  {M : DQN.Models} {V : fbx.Validation} hpo options nas tt tm (dqn : DQN.DQN) :
  DQN.__init__ hpo options nas tt tm = Ok dqn ->
  fbx.is_uniform (fbx.sample (DQN.buffer dqn)) = DQN.buffer_prio_sampling hpo.
Proof.
  unfold DQN.__init__, fbx.make_prioritised_flat_buffer.
  destruct (Algorithm.action_type env.action_space) as [[size discrete]|e];
    [|discriminate].
  cbn [bind]. destruct (fbx.rejects _ _ _ _ _ _); [discriminate|].
  cbn. intros [= <-]. cbn. by destruct (DQN.buffer_prio_sampling hpo).
Qed.

Lemma init_small_agent :
  DQN.__init__ (E := Stub.one_clock) (M := Stub.models _ 1) Stub.small_config
    (Stub.options 1) None false true
  = Ok (Stub.agent Stub.small_config).
Proof. reflexivity. Qed.

(** C1: what the constructor does with [buffer_prio_sampling].  With the
    flag set to [True] it replaces the buffer's sampler by the uniform one
    (batch size 64, sequence length 2, period 1); with the declared default
    [False] the buffer keeps its prioritised sampler. *)
Theorem prio_sampling_flag_installs_uniform_sampler :
  (exists dqn,
      DQN.__init__ (E := Stub.one_clock) (M := Stub.models _ 1)
        Stub.prio_config (Stub.options 1) None false false = Ok dqn
      /\ DQN.buffer_prio_sampling (DQN.hpo_config dqn) = true
      /\ fbx.sample (DQN.buffer dqn) = fbx.uniform_sample 64 2 1)
  /\ (exists dqn,
         DQN.__init__ (E := Stub.one_clock) (M := Stub.models _ 1)
           DQN.get_default_hpo_config (Stub.options 1) None false false
         = Ok dqn
         /\ DQN.buffer_prio_sampling (DQN.hpo_config dqn) = false
         /\ fbx.sample (DQN.buffer dqn)
            = fbx.prioritised_sample 64 (Stub.frac 9 10)).
Proof.
  split; eexists; (split; [reflexivity|]); split; reflexivity.
Qed.

(** C4, as the code has it: the constructor reads [action_type] before it
    builds anything, and a continuous space is not rejected there.
    [action_type] accepts a Discrete space of any of the three libraries as
    [(n, True)] and a Box space with a non-empty shape as
    [(shape[0], False)]; on a space that is neither Discrete nor Box it
    raises [NotImplementedError], and whatever [action_type] raises, the
    constructor raises, at construction time. *)
Theorem action_type_accepts_discrete_and_box {P : random.PRNG}
  {E : env.Environment} {M : DQN.Models} {V : fbx.Validation}
  hpo options nas tt tm :
  (forall lib n, Algorithm.action_type (Discrete lib n) = Ok (n, true))
  /\ (forall lib d shape,
        Algorithm.action_type (Box lib (d :: shape)) = Ok (d, false))
  /\ (forall repr,
        env.action_space = OtherSpace repr ->
        DQN.__init__ hpo options nas tt tm
        = Raise (NotImplementedError
                   ("Only Discrete and Box action spaces are supported, got "
                    ++ repr ++ ".")%string))
  /\ (forall e,
        Algorithm.action_type env.action_space = Raise e ->
        DQN.__init__ hpo options nas tt tm = Raise e).
Proof.
  split; [reflexivity|]. split; [reflexivity|]. split.
  - intros repr Hspace. unfold DQN.__init__. by rewrite Hspace.
  - intros e Hraise. unfold DQN.__init__. by rewrite Hraise.
Qed.

(** C4, counterexample: a Box action space does not fail construction. *)
Lemma box_action_space_is_accepted :
  Algorithm.action_type (Box gymnasium [3%nat]) = Ok (3%nat, false)
  /\ raises
       (DQN.__init__ (E := Stub.box_clock) (M := Stub.models _ 1)
          Stub.small_config (Stub.options 1) None false false)
     = false.
Proof. split; reflexivity. Qed.

(** ** The rollout step on the stub *)

(** C2: the TD error of the rollout step on one clock.  The online
    action-values are (5, 3), the target ones (2, 7); the greedy action 0
    earns reward 1, the episode goes on, gamma is 0.99.  The step
    bootstraps on the index of the best target action, 1, and reports
    [1 + 0.99 * 1 - 5 = -3.01]; the claimed TD error bootstraps on its
    value, 7, and is [1 + 0.99 * 7 - 5 = 2.93]. *)
Theorem td_error_bootstraps_on_action_index :
  let self := Stub.agent Stub.small_config in
  let y :=
    snd (DQN.take_step Stub.power_1 self 1%nat 2%nat Stub.ts0 [0%nat]
           ([0%nat], 0%nat, 0%Z, Stub.bs0)) in
  DQN.out_env_answer y = ([1%nat], [1%Qc], [false], tt)
  /\ DQN.out_action y = [0%nat]
  /\ DQN.out_td_error y = [Stub.frac (-301) 100]
  /\ td_error_claimed (E := Stub.one_clock)
       (DQN.network self (DQN.params Stub.ts0))
       (DQN.network self (DQN.target_params Stub.ts0))
       (DQN.gamma (DQN.hpo_config self)) 0%nat 1%nat 0%nat 1%Qc false
     = Stub.frac 293 100
  /\ Stub.frac (-301) 100 <> Stub.frac 293 100.
Proof.
  cbn zeta. split; [|split; [|split; [|split]]].
  - reflexivity.
  - reflexivity.
  - vm_compute. reflexivity.
  - apply Qc_is_canon. vm_compute. reflexivity.
  - intros Heq. apply (f_equal this) in Heq. vm_compute in Heq. discriminate.
Qed.

(** What the order "add, then read [current_index]" does to a batch of one
    transition, in any buffer of two slots or more: the weight is stored in
    the slot after the written one, which keeps its priority. *)
Lemma single_write_misses_its_slot {P : random.PRNG} {E : env.Environment}
  (bs : fbx.BufferState) (batch : fbx.timestep_batch) (t : fbx.transition)
  (w : Qc) :
  fbx.rows batch = [t] ->
  (2 <= fbx.capacity bs)%nat ->
  (fbx.current_index bs < fbx.capacity bs)%nat ->
  length (fbx.priorities bs) = fbx.capacity bs ->
  let b1 := fbx.add bs batch in
  let b2 := fbx.set_priorities b1 [(0 + fbx.current_index b1)%nat] [w] in
  fbx.experience b2 !! fbx.current_index bs = Some t
  /\ fbx.priorities b2 !! fbx.current_index bs
     = fbx.priorities bs !! fbx.current_index bs
  /\ fbx.priorities b2 !! ((fbx.current_index bs + 1) mod fbx.capacity bs)%nat
     = Some w.
Proof.
  intros Hrows Hcap Hidx Hlen. cbn zeta.
  unfold fbx.set_priorities, fbx.add. rewrite Hrows.
  cbn [fbx.experience fbx.priorities fbx.current_index fbx.write length zip
       zip_with fold_left fst snd Nat.add].
  assert (Hnext :
    ((fbx.current_index bs + 1) mod fbx.capacity bs)%nat
    <> fbx.current_index bs).
  { destruct (decide (fbx.current_index bs + 1 = fbx.capacity bs)%nat)
      as [Heq|Hne].
    - rewrite Heq, Nat.Div0.mod_same. lia.
    - rewrite Nat.mod_small; lia. }
  split; [|split].
  - rewrite (Nat.mod_small _ _ Hidx). apply list_lookup_insert_eq.
    unfold fbx.capacity in Hidx. exact Hidx.
  - by apply list_lookup_insert_ne.
  - apply list_lookup_insert_eq. rewrite Hlen.
    apply Nat.mod_upper_bound. lia.
Qed.

(** C3: the priorities after the rollout step of C2, which writes its
    transition (TD error -3.01) into slot 0 of an empty buffer of four
    slots.  The transition is in slot 0 and the write index has moved to
    1; the weight [(3.01 + epsilon_p) ^ alpha] is stored in slot 1, and
    slot 0 keeps the priority 0 it had. *)
Theorem priority_is_stored_past_the_written_slot (power : Qc -> Qc -> Qc) :
  let self := Stub.agent Stub.small_config in
  let b :=
    DQN.carry_buffer_state
      (fst (DQN.take_step power self 1%nat 2%nat Stub.ts0 [0%nat]
              ([0%nat], 0%nat, 0%Z, Stub.bs0))) in
  fbx.current_index Stub.bs0 = 0%nat
  /\ fbx.experience b !! 0%nat
     = Some (common.mkTimeStep 0%nat 1%nat 0%nat 1%Qc false)
  /\ fbx.current_index b = 1%nat
  /\ fbx.priorities b
     = [0%Qc;
        power (jnp.abs (Stub.frac (-301) 100) + Stub.frac 1 100000)%Qc 1%Qc;
        0%Qc; 0%Qc].
Proof.
  cbn zeta. split; [|split; [|split]].
  - reflexivity.
  - vm_compute. reflexivity.
  - reflexivity.
  - vm_compute. reflexivity.
Qed.

(** ** The theorems at work on the stub *)

(** The boundary test of the evaluator: on two clocks, the first done at
    step 2 and the second at step 3, both paid 1 at every step, the
    episode returns the rewards 2 and 3. *)
Example env_episode_two_clocks :
  Algorithm._env_episode (E := Stub.two_clocks) (fun _ => 0%nat) Stub.greedy
    5 [Stub.frac 5 1; Stub.frac 3 1]
  = Some ([Stub.frac 5 1; Stub.frac 3 1], [Stub.frac 2 1; Stub.frac 3 1]).
Proof. vm_compute. reflexivity. Qed.

Lemma global_step_after_iterations_witness :
  let self := Stub.agent Stub.small_config in
  let reached :=
    DQN.global_step
      (fst (fst (scan
         (DQN._update_step (S := Stub.sampler (Discrete gymnax 2) 1)
            Stub.power_1 self)
         (Stub.rs_at 0, Stub.bs0) 3))) in
  (0 <= DQN.train_frequency (DQN.hpo_config self))%Z
  /\ jnp.is_int32 (DQN.global_step (Stub.rs_at 0))
  /\ reached = jnp.int32 (0 + Z.of_nat 3 * 2 * Z.of_nat 1)
  /\ reached = (0 + Z.of_nat 3 * 2 * Z.of_nat 1)%Z.
Proof.
  cbn zeta.
  assert (Hfreq : (0 <= DQN.train_frequency
                         (DQN.hpo_config (Stub.agent Stub.small_config)))%Z)
    by (cbn; lia).
  assert (Hrange : jnp.is_int32 (DQN.global_step (Stub.rs_at 0)))
    by (unfold jnp.is_int32; cbn; lia).
  destruct (global_step_after_iterations
              (S := Stub.sampler (Discrete gymnax 2) 1)
              Stub.power_1 (Stub.agent Stub.small_config)
              (Stub.rs_at 0) Stub.bs0 3 Hfreq Hrange) as [Hwrapped Hexact].
  split; [exact Hfreq|]. split; [exact Hrange|].
  split; [exact Hwrapped|]. apply Hexact. cbn. lia.
Defined.

(** C7, counterexample: one outer iteration of two steps from the step
    counter 2147483646 leaves the counter at -2147483648, not at
    2147483648. *)
Lemma global_step_wraps_past_int32 :
  let self := Stub.agent Stub.small_config in
  let reached :=
    DQN.global_step
      (fst (fst (scan
         (DQN._update_step (S := Stub.sampler (Discrete gymnax 2) 1)
            Stub.power_1 self)
         (Stub.rs_at 2147483646, Stub.bs0) 1))) in
  reached = (-2147483648)%Z
  /\ reached
     <> (DQN.global_step (Stub.rs_at 2147483646)
         + Z.of_nat 1 * DQN.train_frequency (DQN.hpo_config self)
           * Z.of_nat (DQN.n_envs (DQN.env_options self)))%Z.
Proof.
  cbn zeta. split; [vm_compute; reflexivity|].
  intros Heq. vm_compute in Heq. discriminate.
Qed.

Lemma target_params_change_only_at_gate_witness :
  let self := Stub.agent Stub.small_config in
  let run g :=
    fst (fst (DQN._update_step (S := Stub.sampler (Discrete gymnax 2) 1)
                Stub.power_1 self (Stub.rs_at g, Stub.bs0))) in
  (DQN.global_step (run 0%Z) = 2%Z
   /\ DQN.target_params (DQN.train_state (run 0%Z))
      = DQN.target_params Stub.ts0)
  /\ (DQN.global_step (run 2%Z) = 4%Z
      /\ DQN.target_params (DQN.train_state (run 2%Z))
         = DQN.incremental_update (DQN.params (DQN.train_state (run 2%Z)))
             (DQN.target_params Stub.ts0) (Stub.frac 1 2)).
Proof.
  cbn zeta. split; (split; [vm_compute; reflexivity|]).
  - apply (proj1 (target_params_change_only_at_gate
                    (S := Stub.sampler (Discrete gymnax 2) 1) Stub.power_1
                    (Stub.agent Stub.small_config) (Stub.rs_at 0) Stub.bs0)).
    intros [_ Hmod]. vm_compute in Hmod. discriminate.
  - apply (proj2 (target_params_change_only_at_gate
                    (S := Stub.sampler (Discrete gymnax 2) 1) Stub.power_1
                    (Stub.agent Stub.small_config) (Stub.rs_at 2) Stub.bs0)).
    split; vm_compute; reflexivity.
Defined.

Lemma closed_update_gate_is_a_no_op_witness :
  let self := Stub.agent Stub.patient_config in
  let S1 := Stub.sampler (Discrete gymnax 2) 1 in
  let S2 : fbx.Sampler (E := Stub.one_clock) :=
    {| fbx.draw := fun _ _ _ => [] |} in
  let rs' :=
    fst (fst (DQN._update_step (S := S1) Stub.power_1 self
                (Stub.rs_at 0, Stub.bs0))) in
  DQN.global_step rs' = 2%Z
  /\ DQN._update_step (S := S2) Stub.power_1 self (Stub.rs_at 0, Stub.bs0)
     = DQN._update_step (S := S1) Stub.power_1 self (Stub.rs_at 0, Stub.bs0)
  /\ DQN.params (DQN.train_state rs') = DQN.params Stub.ts0
  /\ DQN.l_loss
       (DQN._update_step_locals (S := S1) Stub.power_1 self
          (Stub.rs_at 0, Stub.bs0))
     = 0%Qc.
Proof.
  cbn zeta. split; [vm_compute; reflexivity|].
  pose proof (closed_update_gate_is_a_no_op Stub.power_1
                (Stub.agent Stub.patient_config)
                (Stub.sampler (Discrete gymnax 2) 1)
                {| fbx.draw := fun _ _ _ => [] |}
                (Stub.rs_at 0) Stub.bs0) as Hno_op.
  cbn zeta in Hno_op.
  destruct Hno_op as (Hsame & Hparams & _ & _ & Hloss & _).
  - intros [Hstart _]. vm_compute in Hstart. discriminate.
  - split; [exact Hsame|]. split; [exact Hparams | exact Hloss].
Defined.

Lemma finished_environment_reward_is_frozen_witness :
  let rs0 := [Stub.frac 5 1; Stub.frac 3 1] in
  let at_step k :=
    Algorithm.after_steps (E := Stub.two_clocks) (fun _ => 0%nat) Stub.greedy
      k rs0 in
  keeps_shape (E := Stub.two_clocks)
  /\ snd (Algorithm.env_answer (E := Stub.two_clocks) Stub.greedy
            (at_step 1%nat)) !! 0%nat
     = Some true
  /\ Algorithm.ep_reward (at_step 4%nat) !! 0%nat
     = Algorithm.ep_reward (at_step 2%nat) !! 0%nat.
Proof.
  cbn zeta.
  assert (Hshape : keeps_shape (E := Stub.two_clocks)).
  { intros s a k. split; reflexivity. }
  assert (Hreport :
    snd (Algorithm.env_answer (E := Stub.two_clocks) Stub.greedy
           (Algorithm.after_steps (E := Stub.two_clocks) (fun _ => 0%nat)
              Stub.greedy 1 [Stub.frac 5 1; Stub.frac 3 1])) !! 0%nat
    = Some true).
  { reflexivity. }
  split; [exact Hshape|]. split; [exact Hreport|].
  apply (proj1 (finished_environment_reward_is_frozen (E := Stub.two_clocks)
                  (fun _ => 0%nat) Stub.greedy Hshape
                  [Stub.frac 5 1; Stub.frac 3 1] 1 0 Hreport) 4%nat).
  lia.
Defined.

Lemma target_update_blends_witness :
  let self := Stub.agent DQN.get_default_hpo_config in
  DQN.tau (DQN.hpo_config self) = 1%Qc
  /\ length (DQN.params Stub.ts0) = length (DQN.target_params Stub.ts0)
  /\ DQN.target_params (DQN.target_update self Stub.ts0)
     = DQN.params Stub.ts0.
Proof.
  cbn zeta. split; [reflexivity|]. split; [reflexivity|].
  apply (proj2 (proj2 (proj2
           (target_update_blends (Stub.agent DQN.get_default_hpo_config)
              Stub.ts0))));
    reflexivity.
Defined.

Lemma rollout_reuses_both_keys_witness :
  let self := Stub.agent Stub.small_config in
  let outputs := snd (DQN.rollout Stub.power_1 self (Stub.rs_at 0) Stub.bs0) in
  length outputs = 2%nat
  /\ Forall (fun y => DQN.out_action y = [0%nat]) outputs.
Proof.
  cbn zeta.
  pose proof (rollout_reuses_both_keys Stub.power_1
                (Stub.agent Stub.small_config) (Stub.rs_at 0) Stub.bs0)
    as (Hlen & Hact & _).
  split; [exact Hlen | exact Hact].
Defined.

(** ** More on the evaluator *)

Lemma while_loop_enough {S : Type} (cond_fun : S -> bool) (body_fun : S -> S) :
  forall n s fuel,
    cond_fun (Nat.iter n body_fun s) = false ->
    (n <= fuel)%nat ->
    exists m, (m <= n)%nat
      /\ while_loop fuel cond_fun body_fun s = Some (Nat.iter m body_fun s)
      /\ cond_fun (Nat.iter m body_fun s) = false.
Proof.
  induction n as [|n IH]; intros s fuel Hstop Hfuel.
  - exists 0%nat. cbn in *. destruct fuel; cbn; by rewrite Hstop.
  - destruct (cond_fun s) eqn:Hc.
    + destruct fuel as [|fuel]; [lia|].
      rewrite Nat.iter_succ_r in Hstop.
      destruct (IH (body_fun s) fuel Hstop) as (m & Hm & Hrun & Hcm); [lia|].
      exists (Datatypes.S m). rewrite Nat.iter_succ_r. cbn [while_loop].
      rewrite Hc. split; [lia|]. by split.
    + exists 0%nat. split; [lia|]. cbn [Nat.iter nat_rect].
      split; [|done]. destruct fuel; cbn; by rewrite Hc.
Qed.

Lemma while_loop_starved {S : Type} (cond_fun : S -> bool) (body_fun : S -> S) :
  forall fuel s,
    (forall j, (j <= fuel)%nat -> cond_fun (Nat.iter j body_fun s) = true) ->
    while_loop fuel cond_fun body_fun s = None.
Proof.
  induction fuel as [|fuel IH]; intros s Hgo;
    pose proof (Hgo 0%nat ltac:(lia)) as Hnow; cbn in Hnow |- *;
    rewrite Hnow; [done|].
  apply IH. intros j Hj. rewrite <- Nat.iter_succ_r. apply Hgo. lia.
Qed.

Lemma env_episode_keeps_runner_state {P : random.PRNG} {E : env.Environment}
  {runner_state : Type} (rng_of : runner_state -> random.key)
  (predict : runner_state -> list env.observation -> random.key -> list nat)
  fuel (rs0 rs1 : runner_state) total :
  Algorithm._env_episode rng_of predict fuel rs0 = Some (rs1, total) ->
  rs1 = rs0.
Proof.
  unfold Algorithm._env_episode.
  destruct (while_loop _ _ _ _); [|done]. by intros [= <- _].
Qed.

Lemma two_clocks_keeps_shape : keeps_shape (E := Stub.two_clocks).
Proof. intros s a k. split; reflexivity. Qed.

Section EvaluatorMore.
Context {P : random.PRNG} {E : env.Environment} {runner_state : Type}.
Variable rng_of : runner_state -> random.key.
Variable predict : runner_state -> list env.observation -> random.key -> list nat.
Hypothesis shape : keeps_shape.

Let after_steps := Algorithm.after_steps rng_of predict.

Lemma answered_lookup (rs0 : runner_state) (j i : nat) :
  (i < env.n_envs)%nat ->
  fst (Algorithm.env_answer predict (after_steps j rs0)) !! i
  = Some (Evaluation.answered_reward rng_of predict rs0 j i)
  /\ snd (Algorithm.env_answer predict (after_steps j rs0)) !! i
     = Some (Evaluation.answered_done rng_of predict rs0 j i).
Proof.
  intros Hi. unfold Evaluation.answered_reward, Evaluation.answered_done.
  fold after_steps.
  destruct (answer_shaped predict shape (after_steps j rs0)) as [Hr Hd].
  destruct (lookup_lt_is_Some_2
              (fst (Algorithm.env_answer predict (after_steps j rs0))) i)
    as [r ->]; [lia|].
  destruct (lookup_lt_is_Some_2
              (snd (Algorithm.env_answer predict (after_steps j rs0))) i)
    as [d ->]; [lia|].
  done.
Qed.

(** X1: the evaluator's bookkeeping in closed form.  After [k] steps the done
    mask of an environment says whether it has reported done in one of
    these steps, and its accumulated reward is the sum of the rewards it
    was paid in the steps it entered unfinished: the step in which it
    reports done still counts, later ones do not. *)
Theorem episode_reward_counts_unfinished_steps (rs0 : runner_state)
  (i k : nat) :
  (i < env.n_envs)%nat ->
  Algorithm.ep_done (after_steps k rs0) !! i
  = Some (Evaluation.finished_before rng_of predict rs0 k i)
  /\ Algorithm.ep_reward (after_steps k rs0) !! i
     = Some (Evaluation.counted_reward rng_of predict rs0 k i).
Proof.
  intros Hi. induction k as [|k [IHd IHr]].
  - unfold after_steps, Algorithm.after_steps, Algorithm.initial_state.
    cbn [Nat.iter nat_rect].
    destruct (random.split (rng_of rs0)) as [k1 k2].
    destruct (random.split k2) as [k3 reset_rng].
    destruct (env.reset reset_rng) as [es o].
    cbn [Algorithm.ep_reward Algorithm.ep_done].
    split; by apply lookup_replicate_2.
  - destruct (answered_lookup rs0 k i Hi) as [Hr_ Hd_].
    destruct (body_fn_at predict _ i _ _ _ _ IHr IHd Hr_ Hd_) as [Hr Hd].
    split.
    + etrans; [exact Hd|]. f_equal. unfold Evaluation.finished_before.
      rewrite seq_S, existsb_app. cbn. by rewrite orb_false_r.
    + exact Hr.
Qed.

(** X2: an evaluation episode returns as soon as its fuel reaches a step at
    which every environment is done, and what it returns is then the same
    for any such step and any such fuel: the runner state it was given
    and the rewards accumulated at that step.  On less fuel than the first
    such step it does not return. *)
Theorem episode_returns_once_all_done (rs0 : runner_state) (n fuel : nat) :
  (jnp.all (Algorithm.ep_done (after_steps n rs0)) = true ->
   (n <= fuel)%nat ->
   Algorithm._env_episode rng_of predict fuel rs0
   = Some (rs0, Algorithm.ep_reward (after_steps n rs0)))
  /\ ((forall j, (j <= fuel)%nat ->
         jnp.all (Algorithm.ep_done (after_steps j rs0)) = false) ->
      Algorithm._env_episode rng_of predict fuel rs0 = None).
Proof.
  assert (Hcond : forall s : Algorithm.episode_state (runner_state := runner_state),
             Algorithm.cond_fn s = negb (jnp.all (Algorithm.ep_done s))).
  { by intros [[[[[es o] rw] dn] kk] rs1]. }
  split.
  - intros Hall Hfuel. unfold Algorithm._env_episode.
    destruct (while_loop_enough Algorithm.cond_fn (Algorithm.body_fn predict)
                n (Algorithm.initial_state rng_of rs0) fuel)
      as (m & Hm & -> & Hstop); [|done|].
    { change (Nat.iter n _ _) with (after_steps n rs0).
      by rewrite Hcond, Hall. }
    change (Nat.iter m _ _) with (after_steps m rs0) in *.
    rewrite Hcond in Hstop. apply negb_false_iff in Hstop.
    f_equal. f_equal. apply list_eq. intros i.
    destruct (after_steps_shaped rng_of predict shape m rs0) as [Hrm Hdm].
    destruct (after_steps_shaped rng_of predict shape n rs0) as [Hrn Hdn].
    unfold after_steps in *.
    destruct (decide (i < env.n_envs)%nat) as [Hi|Hi].
    + symmetry. apply (frozen_from rng_of predict shape rs0 i m); [|done].
      apply all_lookup; [done | by rewrite Hdm].
    + rewrite !lookup_ge_None_2; [done | lia | lia].
  - intros Hgo. unfold Algorithm._env_episode.
    rewrite while_loop_starved; [done|].
    intros j Hj. change (Nat.iter j _ _) with (after_steps j rs0).
    by rewrite Hcond, (Hgo j Hj).
Qed.

Lemma episodes_repeat fuel (rs0 : runner_state) :
  forall n rs' rewards,
    Evaluation.episodes rng_of predict fuel rs0 n = Some (rs', rewards) ->
    rs' = rs0
    /\ ((n = 0%nat /\ rewards = [])
        \/ exists total,
             Algorithm._env_episode rng_of predict fuel rs0 = Some (rs0, total)
             /\ rewards = replicate n total).
Proof.
  induction n as [|n IH]; intros rs' rewards; cbn [Evaluation.episodes].
  - intros [= <- <-]. split; [done|]. by left.
  - destruct (Algorithm._env_episode rng_of predict fuel rs0)
      as [[rs1 total]|] eqn:Hrun; [|done].
    pose proof (env_episode_keeps_runner_state _ _ _ _ _ _ Hrun) as ->.
    destruct (Evaluation.episodes rng_of predict fuel rs0 n)
      as [[rs2 rest]|] eqn:Hrest; [|done].
    intros [= <- <-].
    destruct (IH _ _ eq_refl) as [-> Hcases]. split; [done|]. right.
    exists total. split; [done|]. cbn [replicate]. f_equal.
    destruct Hcases as [[-> ->]|(total' & Hrun' & ->)]; [done|].
    by injection Hrun' as ->.
Qed.

Lemma n_evals_positive (num : Z) :
  (env.n_envs <> 0)%nat \/ (num <= Z.of_nat env.n_envs)%Z ->
  (1 <= Evaluation.n_evals_of num)%nat
  /\ (0 <= num ->
      num <= Z.of_nat (Evaluation.n_evals_of num * env.n_envs))%Z.
Proof.
  intros Hn. unfold Evaluation.n_evals_of, Evaluation.ceil_div.
  destruct (Z.ltb_spec (Z.of_nat env.n_envs) num) as [Hlt|Hle].
  - assert (Hpos : (0 < Z.of_nat env.n_envs)%Z) by lia.
    pose proof (Z.mul_div_le (- num) _ Hpos) as Hfloor.
    pose proof (Z.mul_succ_div_gt (- num) _ Hpos) as Hceil.
    split; [nia|]. intros _. rewrite Nat2Z.inj_mul, Z2Nat.id; nia.
  - split; [lia|]. lia.
Qed.

Lemma eval_returns_inv fuel (rs0 : runner_state) (num : Z) rewards :
  Evaluation.eval rng_of predict fuel rs0 num = Evaluation.Returns rewards ->
  exists total,
    Algorithm._env_episode rng_of predict fuel rs0 = Some (rs0, total)
    /\ (1 <= Evaluation.n_evals_of num)%nat
    /\ (0 <= num -> num <= Z.of_nat (Evaluation.n_evals_of num * env.n_envs))%Z
    /\ rewards
       = Evaluation.slice_to
           (concat (replicate (Evaluation.n_evals_of num) total)) num.
Proof.
  unfold Evaluation.eval.
  destruct (_ && _) eqn:Hzero; [done|].
  destruct (Evaluation.episodes _ _ _ _ _) as [[rs' rs]|] eqn:Hrun; [|done].
  intros [= <-].
  assert (Hn : (env.n_envs <> 0)%nat \/ (num <= Z.of_nat env.n_envs)%Z).
  { apply andb_false_iff in Hzero as [Hle|Hne].
    - right. apply Z.ltb_ge in Hle. lia.
    - left. by apply Nat.eqb_neq in Hne. }
  destruct (n_evals_positive num Hn) as [Hone Hcover].
  apply episodes_repeat in Hrun as [_ [[Hz _]|(total & Hep & ->)]]; [lia|].
  exists total. done.
Qed.


(** X4: [eval] returns exactly [num_eval_episodes] rewards, for every
    [num_eval_episodes] from 0 up to [2^24] (the range in which the
    float32 ceiling of the source is exact), whether it is below, at or
    above the number of environments. *)
Theorem eval_returns_requested_number fuel (rs0 : runner_state) (num : Z)
  rewards :
  (0 <= num)%Z ->
  (num <= 16777216)%Z ->
  Evaluation.eval rng_of predict fuel rs0 num = Evaluation.Returns rewards ->
  length rewards = Z.to_nat num.
Proof.
  intros Hnum _ Hret.
  apply eval_returns_inv in Hret as (total & Hep & _ & Hcover & ->).
  assert (Hlen : length total = env.n_envs).
  { unfold Algorithm._env_episode in Hep.
    destruct (while_loop _ _ _ _) as [final|] eqn:Hrun; [|done].
    injection Hep as <-.
    apply while_loop_iter in Hrun as (m & -> & _).
    apply (after_steps_shaped rng_of predict shape m rs0). }
  unfold Evaluation.slice_to.
  destruct (Z.leb_spec 0 num) as [_|]; [|lia].
  rewrite length_firstn.
  assert (Hsum : forall k, length (concat (replicate k total))
                           = (k * env.n_envs)%nat).
  { induction k as [|k IHk]; cbn; [done|].
    rewrite length_app, IHk, Hlen. lia. }
  rewrite Hsum. specialize (Hcover Hnum). lia.
Qed.

End EvaluatorMore.

(** ** More on the scheduler *)

Lemma scan_snoc {C Y : Type} (f : C -> C * Y) (n : nat) :
  forall c, fst (scan f c (S n)) = fst (f (fst (scan f c n))).
Proof.
  induction n as [|n IH]; intros c.
  - rewrite scan_succ. reflexivity.
  - rewrite scan_succ. cbn [fst]. rewrite IH.
    by rewrite (scan_succ f c n).
Qed.

Section SchedulerMore.
Context {P : random.PRNG} {E : env.Environment} {O : DQN.Optimiser}
  {S : fbx.Sampler}.
Variable power : Qc -> Qc -> Qc.
Variable self : DQN.DQN.

Let tf := DQN.train_frequency (DQN.hpo_config self).
Let n := Z.of_nat (DQN.n_envs (DQN.env_options self)).
Let ls := DQN.learning_starts (DQN.hpo_config self).

(** One outer iteration raises the step of the TrainState by one when the
    update gate is open and leaves it otherwise. *)
Lemma update_step_counts_update (c : DQN.DQNRunnerState * fbx.BufferState) :
  let rs' := fst (fst (DQN._update_step power self c)) in
  DQN.step (DQN.train_state rs')
  = (DQN.step (DQN.train_state (fst c))
     + if DQN.update_gate self (DQN.global_step rs') then 1 else 0)%Z.
Proof.
  destruct c as [rs bs]. cbn zeta.
  unfold DQN._update_step. cbn [fst]. unfold DQN._update_step_locals.
  destruct (random.split (DQN.rng rs)) as [rng0 _rng].
  destruct (DQN.rollout power self rs bs) as [[[[o es] gs] b] outs].
  destruct (DQN.update_gate self gs) eqn:Hgate.
  - unfold DQN.do_update, DQN.update, DQN.apply_gradients.
    destruct (DQN.tx_update _ _ _ _) as [updates new_opt_state].
    cbn. rewrite Hgate. by destruct (DQN.target_gate self gs).
  - cbn. rewrite Hgate, Z.add_0_r. by destruct (DQN.target_gate self gs).
Qed.

(** X5: from a step counter that is a multiple of [train_frequency] (the 0 of
    a fresh start is one), the counter an outer iteration reaches without
    leaving the int32 range is again such a multiple, so that the modulo
    test of the update gate passes: the update runs exactly when the
    counter has passed [learning_starts]. *)
Theorem update_gate_of_aligned_counter (rs : DQN.DQNRunnerState)
  (bs : fbx.BufferState) :
  (0 < tf)%Z ->
  (DQN.global_step rs mod tf = 0)%Z ->
  (-2147483648 <= DQN.global_step rs)%Z ->
  (DQN.global_step rs + tf * n <= 2147483647)%Z ->
  let g := DQN.global_step (fst (fst (DQN._update_step power self (rs, bs)))) in
  (g mod tf = 0)%Z /\ DQN.update_gate self g = (ls <? g)%Z.
Proof.
  intros Hfreq Haligned Hlow Hhigh. cbn zeta.
  assert (Hn : (0 <= n)%Z) by (unfold n; lia).
  rewrite update_step_global_step
    by (cbn [fst]; unfold jnp.is_int32; nia).
  cbn [fst]. fold tf n. rewrite Z2Nat.id by lia.
  rewrite int32_small by (unfold jnp.is_int32; nia).
  assert (Hmod : ((DQN.global_step rs + tf * n) mod tf = 0)%Z).
  { rewrite (Z.mul_comm tf n), Z.mod_add by lia. exact Haligned. }
  split; [exact Hmod|].
  unfold DQN.update_gate. fold tf ls. rewrite Hmod. cbn.
  by rewrite andb_true_r.
Qed.

(** X6: started at step counter 0, [N] outer iterations that keep the step
    counter within the int32 range perform
    [max 0 (N - learning_starts // (train_frequency * n_envs))] gradient
    updates, which is what the step of the TrainState counts: none while
    the counter has not passed [learning_starts], one per iteration
    afterwards. *)
Theorem step_counts_updates_after_warm_up (rs : DQN.DQNRunnerState)
  (bs : fbx.BufferState) (N : nat) :
  (0 < tf)%Z -> (0 < n)%Z -> (0 <= ls)%Z ->
  DQN.global_step rs = 0%Z ->
  (Z.of_nat N * (tf * n) <= 2147483647)%Z ->
  (DQN.step (DQN.train_state rs) + Z.of_nat N <= 2147483647)%Z ->
  DQN.step
    (DQN.train_state
       (fst (fst (scan (DQN._update_step power self) (rs, bs) N))))
  = (DQN.step (DQN.train_state rs)
     + Z.max 0 (Z.of_nat N - ls / (tf * n)))%Z.
Proof.
  intros Hfreq Hn Hls Hstart Hfits _.
  assert (Hd : (0 < tf * n)%Z) by lia.
  assert (Hq : (0 <= ls / (tf * n))%Z) by (apply Z.div_pos; lia).
  induction N as [|N IH].
  - cbn. lia.
  - rewrite scan_snoc.
    pose proof (update_step_counts_update
                  (fst (scan (DQN._update_step power self) (rs, bs) N)))
      as Hstep.
    cbn zeta in Hstep. rewrite Hstep, IH by nia. clear Hstep IH.
    rewrite <- scan_snoc.
    rewrite iterations_wrapped_global_step
      by (try (fold tf; lia); rewrite Hstart; unfold jnp.is_int32; lia).
    fold tf n. rewrite Hstart.
    rewrite int32_small by (unfold jnp.is_int32; nia).
    unfold DQN.update_gate. fold tf ls.
    replace (0 + Z.of_nat (Datatypes.S N) * (tf * n))%Z
      with (Z.of_nat (Datatypes.S N) * n * tf)%Z by lia.
    rewrite Z.mod_mul by lia. cbn [Z.eqb]. rewrite andb_true_r.
    destruct (Z.ltb_spec ls (Z.of_nat (Datatypes.S N) * n * tf)) as [Hlt|Hge].
    + assert ((ls / (tf * n) < Z.of_nat (Datatypes.S N))%Z).
      { apply Z.div_lt_upper_bound; lia. }
      lia.
    + assert ((Z.of_nat (Datatypes.S N) <= ls / (tf * n))%Z).
      { apply Z.div_le_lower_bound; lia. }
      lia.
Qed.

(** X7: [train] spends its budget without overdrawing it: as long as the
    budget added to the step counter stays within the int32 range, the
    step counter advances by at most [n_total_timesteps] and falls short
    of it by less than the [train_frequency * n_envs] steps of one outer
    iteration. *)
Theorem train_stays_within_budget (rs : DQN.DQNRunnerState)
  (bs : fbx.BufferState) :
  (0 < tf)%Z -> (0 < n)%Z ->
  (0 <= DQN.n_total_timesteps (DQN.env_options self))%Z ->
  (-2147483648 <= DQN.global_step rs)%Z ->
  (DQN.global_step rs + DQN.n_total_timesteps (DQN.env_options self)
   <= 2147483647)%Z ->
  let spent :=
    (DQN.global_step (fst (fst (DQN.train power self rs bs)))
     - DQN.global_step rs)%Z in
  (spent <= DQN.n_total_timesteps (DQN.env_options self)
   /\ DQN.n_total_timesteps (DQN.env_options self) - tf * n < spent)%Z.
Proof.
  intros Hfreq Hn Hbudget Hlow Hhigh. cbn zeta.
  rewrite train_global_step
    by (try (fold tf; lia); unfold jnp.is_int32; lia).
  unfold DQN.n_iterations. fold tf n.
  set (T := DQN.n_total_timesteps (DQN.env_options self)) in *.
  rewrite Z.div_div by lia.
  assert (Hd : (0 < tf * n)%Z) by lia.
  pose proof (Z.mul_div_le T _ Hd). pose proof (Z.mul_succ_div_gt T _ Hd).
  assert ((0 <= T / (tf * n))%Z) by (apply Z.div_pos; lia).
  rewrite Z2Nat.id by done.
  rewrite int32_small by (unfold jnp.is_int32; nia).
  nia.
Qed.

(** X8: the two ends of the exploration rate.  With uniform draws in [[0, 1)],
    [epsilon = 0] makes every step of a rollout take the greedy action of
    the online network, and [epsilon >= 1] makes every step take the
    random action, which gives every environment the one action sampled
    from the rollout's key. *)
Theorem exploration_rate_extremes (rs : DQN.DQNRunnerState)
  (bs : fbx.BufferState) :
  (forall k, (0 <= random.uniform k)%Qc /\ (random.uniform k < 1)%Qc) ->
  let outputs := snd (DQN.rollout power self rs bs) in
  (DQN.epsilon (DQN.hpo_config self) = 0%Qc ->
   Forall (fun y => DQN.out_action y
                    = map jnp.argmax
                        (DQN.apply self (DQN.params (DQN.train_state rs))
                           (DQN.obs rs)))
     outputs)
  /\ ((1 <= DQN.epsilon (DQN.hpo_config self))%Qc ->
      Forall (fun y => DQN.out_action y
                       = replicate (DQN.n_envs (DQN.env_options self))
                           (env.sample_action
                              (fst (random.split (DQN.rng rs)))))
        outputs).
Proof.
  intros Hrange. cbn zeta. unfold DQN.rollout.
  destruct (random.split (DQN.rng rs)) as [rng0 _rng]. cbn [fst].
  destruct (Hrange rng0) as [Hlow Hhigh].
  split; intros Heps; apply scan_outputs; intros c;
    rewrite take_step_action; unfold DQN.explores.
  - rewrite Heps, bool_decide_eq_false_2; [done|]. by apply Qcle_not_lt.
  - rewrite bool_decide_eq_true_2; [done|]. by eapply Qclt_le_trans.
Qed.

End SchedulerMore.

(** ** Greedy actions *)

Lemma maximum_fold (rest : list Qc) :
  forall x,
    let M := fold_left jnp.maximum rest x in
    ((x <= M)%Qc /\ forall y, y ∈ rest -> (y <= M)%Qc)
    /\ (M = x \/ M ∈ rest).
Proof.
  induction rest as [|y rest IH]; intros x; cbn zeta; cbn [fold_left].
  - split; [split; [apply Qcle_refl|] | by left]. intros y Hy. by inversion Hy.
  - destruct (IH (jnp.maximum x y)) as [[Hx Hrest] Hin].
    assert (Hxy : (x <= jnp.maximum x y)%Qc /\ (y <= jnp.maximum x y)%Qc).
    { unfold jnp.maximum. case_bool_decide as Hlt.
      - split; [by apply Qclt_le_weak | apply Qcle_refl].
      - split; [apply Qcle_refl | by apply Qcnot_lt_le]. }
    split; [split|].
    + eapply Qcle_trans; [apply Hxy | exact Hx].
    + intros z Hz. apply elem_of_cons in Hz as [->|Hz]; [|by apply Hrest].
      eapply Qcle_trans; [apply Hxy | exact Hx].
    + destruct Hin as [Heq|Hin]; [|right; by apply elem_of_cons; right].
      rewrite Heq. unfold jnp.maximum. case_bool_decide.
      * right. apply elem_of_cons. by left.
      * by left.
Qed.

Lemma argmax_from_spec (rest : list Qc) :
  forall (pre : list Qc) (bi : nat) (b : Qc),
    pre !! bi = Some b ->
    (forall j x, pre !! j = Some x -> (x <= b)%Qc) ->
    (forall j x, (j < bi)%nat -> pre !! j = Some x -> (x < b)%Qc) ->
    exists m,
      (pre ++ rest) !! jnp.argmax_from bi b (length pre) rest = Some m
      /\ (forall j x, (pre ++ rest) !! j = Some x -> (x <= m)%Qc)
      /\ (forall j x,
            (j < jnp.argmax_from bi b (length pre) rest)%nat ->
            (pre ++ rest) !! j = Some x -> (x < m)%Qc).
Proof.
  induction rest as [|x rest IH]; intros pre bi b Hbi Hle Hlt.
  - cbn [jnp.argmax_from]. rewrite app_nil_r. by exists b.
  - cbn [jnp.argmax_from].
    assert (Hbound : (bi < length pre)%nat) by (by eapply lookup_lt_Some).
    replace (pre ++ x :: rest) with ((pre ++ [x]) ++ rest)
      by (by rewrite <- app_assoc).
    replace (Datatypes.S (length pre)) with (length (pre ++ [x]))
      by (rewrite length_app; cbn; lia).
    case_bool_decide as Hbx; apply IH.
    + rewrite lookup_app_r by lia. by rewrite Nat.sub_diag.
    + intros j y Hy. apply lookup_app_Some in Hy as [Hy|[_ Hy]].
      * apply Qclt_le_weak. eapply Qcle_lt_trans; [by eapply Hle | done].
      * apply list_lookup_singleton_Some in Hy as [_ <-]. apply Qcle_refl.
    + intros j y Hj Hy. rewrite lookup_app_l in Hy by done.
      eapply Qcle_lt_trans; [by eapply Hle | done].
    + by rewrite lookup_app_l.
    + intros j y Hy. apply lookup_app_Some in Hy as [Hy|[_ Hy]].
      * by eapply Hle.
      * apply list_lookup_singleton_Some in Hy as [_ <-]. by apply Qcnot_lt_le.
    + intros j y Hj Hy. rewrite lookup_app_l in Hy by lia. by eapply Hlt.
Qed.

(** X9: [predict] picks, for every observation, the first action of greatest
    value: the action it returns is within the row of action-values, its
    value is the row's maximum, and every action before it has a strictly
    smaller value. *)
Theorem predict_is_first_best_action {P : random.PRNG} {E : env.Environment}
  (self : DQN.DQN) (network_params : list Qc) (obsv : list env.observation)
  (rng0 : random.key) (i : nat) (o : env.observation) :
  obsv !! i = Some o ->
  DQN.network self network_params o <> [] ->
  let row := DQN.network self network_params o in
  exists a,
    DQN.predict self network_params obsv rng0 !! i = Some a
    /\ row !! a = Some (jnp.max row)
    /\ (forall j x, row !! j = Some x -> (x <= jnp.max row)%Qc)
    /\ (forall j x, (j < a)%nat -> row !! j = Some x -> (x < jnp.max row)%Qc).
Proof.
  intros Ho Hrow. cbn zeta. unfold DQN.predict, DQN.apply.
  rewrite !lookup_map, Ho. cbn [fmap option_fmap option_map].
  destruct (DQN.network self network_params o) as [|x rest] eqn:Hnet; [done|].
  destruct (argmax_from_spec rest [x] 0 x) as (m & Ha & Hle & Hlt).
  { done. }
  { intros [|j] y Hy; [|done]. injection Hy as <-. apply Qcle_refl. }
  { intros j y Hj. lia. }
  cbn [length app] in Ha, Hle, Hlt.
  assert (Hmax : jnp.max (x :: rest) = m).
  { cbn [jnp.max]. destruct (maximum_fold rest x) as [[Hx Hrest] Hin].
    cbn zeta in *. apply Qcle_antisym.
    - destruct Hin as [->|Hin]; [by apply (Hle 0%nat)|].
      apply list_elem_of_lookup in Hin as [j Hj]. by apply (Hle (Datatypes.S j)).
    - apply lookup_cons_Some in Ha as [[_ <-]|[_ Ha]]; [done|].
      apply Hrest. by eapply list_elem_of_lookup_2. }
  exists (jnp.argmax (x :: rest)). rewrite Hmax. cbn [jnp.argmax]. done.
Qed.

(** ** The update step *)

Lemma square_nonneg (x : Qc) : (0 <= x * x)%Qc.
Proof.
  destruct (Qclt_le_dec x 0) as [Hneg|Hpos].
  - replace (x * x)%Qc with ((- x) * (- x))%Qc by ring.
    assert (0 <= - x)%Qc.
    { apply Qclt_le_weak in Hneg. apply Qcopp_le_compat in Hneg.
      by replace (- 0)%Qc with 0%Qc in Hneg by ring. }
    by apply Qcmult_nonneg_nonneg.
  - by apply Qcmult_nonneg_nonneg.
Qed.

Lemma mean_square_nonneg (v : list Qc) : (0 <= jnp.mean (jnp.square v))%Qc.
Proof.
  unfold jnp.mean.
  assert (Hsum : (0 <= fold_right Qcplus 0 (jnp.square v))%Qc).
  { induction v as [|x v IH]; cbn; [apply Qcle_refl|].
    apply Qcplus_nonneg_nonneg; [apply square_nonneg | exact IH]. }
  set (N := jnp.of_nat (length (jnp.square v))).
  unfold Qcdiv. destruct (Qclt_le_dec 0 N) as [Hpos|Hzero].
  - apply Qcmult_nonneg_nonneg; [done|]. apply Qclt_le_weak. by apply Qcinv_pos.
  - assert (HN : (0 <= N)%Qc).
    { unfold N, jnp.of_nat, Qcle. cbn [this Q2Qc]. rewrite !Qred_correct.
      unfold Qle. cbn. lia. }
    rewrite (Qcle_antisym _ _ Hzero HN).
    replace (/ 0)%Qc with 0%Qc by (by apply Qc_is_canon).
    rewrite Qcmult_0_r. apply Qcle_refl.
Qed.

Lemma terminal_target (gamma0 : Qc) (rewards : list Qc) :
  forall (dones : list bool) (q_next : list Qc),
    Forall (fun d => d = true) dones ->
    length dones = length rewards ->
    length q_next = length rewards ->
    jnp.add rewards
      (jnp.mul (jnp.scale (jnp.one_minus dones) gamma0) q_next)
    = rewards.
Proof.
  induction rewards as [|r rewards IH]; intros [|d dones] [|q q_next] Hall Hd Hq;
    try discriminate; [done|].
  inversion Hall as [|? ? -> Hall']; subst.
  unfold jnp.add, jnp.mul, jnp.scale, jnp.one_minus in *.
  cbn [map zip_with]. f_equal.
  - cbn. ring.
  - apply IH; [done | by injection Hd | by injection Hq].
Qed.

Section UpdateFacts.
Context {P : random.PRNG} {E : env.Environment} {O : DQN.Optimiser}.
Variable self : DQN.DQN.

(** X10: the loss of an update is a mean of squares: it is never negative,
    whatever the batch and the parameters. *)
Theorem update_loss_is_nonnegative (ts : DQN.TrainState)
  (observations : list env.observation) (actions : list nat)
  (next_observations : list env.observation) (rewards : list Qc)
  (dones : list bool) :
  let result :=
    DQN.update self ts observations actions next_observations rewards dones in
  let loss_value := snd (fst (fst (fst result))) in
  (0 <= loss_value)%Qc.
Proof.
  cbn zeta.
  unfold DQN.update, DQN.apply_gradients.
  destruct (DQN.tx_update _ _ _ _) as [updates new_opt_state].
  apply mean_square_nonneg.
Qed.

(** X11: on a batch of terminal transitions an update regresses on the rewards
    alone: its loss is the mean squared difference between the predicted
    value of the action taken and the reward, whatever the discount, the
    target parameters and the next observations are. *)
Theorem update_on_terminal_batch (ts : DQN.TrainState)
  (observations : list env.observation) (actions : list nat)
  (next_observations : list env.observation) (rewards : list Qc)
  (dones : list bool) :
  Forall (fun d => d = true) dones ->
  length dones = length rewards ->
  length next_observations = length rewards ->
  let result :=
    DQN.update self ts observations actions next_observations rewards dones in
  let loss_value := snd (fst (fst (fst result))) in
  let q_pred := snd (fst (fst result)) in
  q_pred = jnp.gather_rows (DQN.apply self (DQN.params ts) observations) actions
  /\ loss_value = jnp.mean (jnp.square (jnp.sub q_pred rewards)).
Proof.
  intros Hall Hd Hn. cbn zeta. unfold DQN.update, DQN.apply_gradients.
  destruct (DQN.tx_update _ _ _ _) as [updates new_opt_state].
  split; [done|].
  rewrite terminal_target; [done | done | done |].
  rewrite length_map. unfold DQN.apply.
  destruct (DQN.use_target_network (DQN.hpo_config self));
    by rewrite length_map.
Qed.

End UpdateFacts.

(** ** Initialisation *)

Section SetupFacts.
Context {P : random.PRNG} {E : env.Environment} {O : DQN.Optimiser}
  {I : Setup.Initialisers}.
Variable self : DQN.DQN.

(** X12: whatever it is given, [init] starts the counters afresh: the runner
    state it returns has [global_step] 0 and a TrainState at step 0.  A
    buffer state, parameters or an optimiser state passed in are returned
    as they are; a missing optimiser state is the optimiser's initial
    state for the online parameters. *)
Theorem init_resets_counters_and_keeps_what_it_is_given (rng0 : random.key)
  (buffer_state0 : option fbx.BufferState)
  (network_params0 target_params0 : option (list Qc))
  (opt_state0 : option DQN.opt_state_t)
  (rs : DQN.DQNRunnerState) (bs : fbx.BufferState) :
  Setup.init self rng0 buffer_state0 network_params0 target_params0 opt_state0
  = Ok (rs, bs) ->
  DQN.global_step rs = 0%Z
  /\ DQN.step (DQN.train_state rs) = 0%Z
  /\ (forall b, buffer_state0 = Some b -> bs = b)
  /\ (forall p, network_params0 = Some p -> DQN.params (DQN.train_state rs) = p)
  /\ (forall p, target_params0 = Some p ->
        DQN.target_params (DQN.train_state rs) = p)
  /\ DQN.opt_state (DQN.train_state rs)
     = match opt_state0 with
       | Some s => s
       | None => Setup.tx_init (DQN.params (DQN.train_state rs))
       end.
Proof.
  unfold Setup.init.
  destruct (random.split rng0) as [rng1 _rng].
  destruct (env.reset rng1) as [es o].
  destruct (env.step es _ _) as [es1 [[[_obs _reward] _done] i1]].
  destruct (random.split rng1) as [rng2 _rng2].
  destruct (match buffer_state0 with Some b => _ | None => _ end)
    as [b1|e] eqn:Hbuf; cbn [bind]; [|done].
  intros [= <- <-]. cbn.
  repeat split.
  - intros b ->. by injection Hbuf.
  - by intros p ->.
  - by intros p ->.
Qed.

(** X13: a fresh start gives the target network the parameters of the online
    network: when neither parameter set is passed in, both are initialised
    from the same key and the same observations. *)
Theorem fresh_parameters_coincide (rng0 : random.key)
  (buffer_state0 : option fbx.BufferState)
  (opt_state0 : option DQN.opt_state_t)
  (rs : DQN.DQNRunnerState) (bs : fbx.BufferState) :
  Setup.init self rng0 buffer_state0 None None opt_state0 = Ok (rs, bs) ->
  DQN.target_params (DQN.train_state rs) = DQN.params (DQN.train_state rs).
Proof.
  unfold Setup.init.
  destruct (random.split rng0) as [rng1 _rng].
  destruct (env.reset rng1) as [es o].
  destruct (env.step es _ _) as [es1 [[[_obs _reward] _done] i1]].
  destruct (random.split rng1) as [rng2 _rng2].
  destruct (match buffer_state0 with Some b => _ | None => _ end)
    as [b1|e]; cbn [bind]; [|done].
  by intros [= <- <-].
Qed.

End SetupFacts.

(** ** Objectives *)

Section ObjectiveFacts.
Context {Args R : Type}.
Implicit Types (f : objectives.TrainFunc (Args := Args) (R := R)).

(** X14: a reward objective writes its own key and no other, and only when
    training returned and reported an evaluation: when the wrapped function
    raises, or its [eval_rewards] is empty (an [IndexError]), the wrapper
    raises and the dictionary is as the wrapped function left it. *)
Theorem reward_objective_writes_only_its_key f (optimize_objectives : string)
  (args : Args) (d : objectives.objectives_dict) :
  let inner := f args d in
  let outer := objectives.RewardMean f optimize_objectives args d in
  (forall k, k <> objectives.RewardMean_KEY -> snd outer !! k = snd inner !! k)
  /\ (raises (fst outer) = true -> snd outer = snd inner)
  /\ (forall x, fst inner = Ok x -> fst outer = Ok x \/ fst outer = Raise IndexError)
  /\ (forall e, fst inner = Raise e -> fst outer = Raise e)
  /\ (forall x tr,
        fst inner = Ok (x, tr) -> objectives.eval_rewards tr = [] ->
        outer = (Raise IndexError, snd inner)).
Proof.
  cbn zeta. unfold objectives.RewardMean, objectives.last_entry.
  destruct (f args d) as [[[x tr]|e] d1]; cbn [fst snd].
  - destruct (last (objectives.eval_rewards tr)) as [row|] eqn:Hlast;
      cbn [fst snd raises]; (split; [|split; [|split; [|split]]]); try done.
    + intros k Hk. by rewrite lookup_insert_ne.
    + intros y [= <-]. by left.
    + intros y tr' [= <- <-] Hempty. by rewrite Hempty in Hlast.
    + intros y [= <-]. by right.
  - (split; [|split; [|split; [|split]]]); done.
Qed.

(** X15: [RewardStd] records a mean.  Wrapped around the same training run,
    [RewardStd] under its own direction ("lower") stores under
    "reward_std" the very number [RewardMean] under its own direction
    ("upper") stores under "reward_mean": the mean of the last evaluation's
    rewards. *)
Theorem reward_std_records_the_mean f (args : Args)
  (d d1 : objectives.objectives_dict) (x : R) (tr : objectives.TrainResult)
  (row : list Qc) :
  f args d = (Ok (x, tr), d1) ->
  last (objectives.eval_rewards tr) = Some row ->
  row <> [] ->
  snd (objectives.RewardStd f "lower" args d) !! objectives.RewardStd_KEY
  = Some (jnp.mean row)
  /\ snd (objectives.RewardMean f "upper" args d) !! objectives.RewardMean_KEY
     = Some (jnp.mean row).
Proof.
  intros Hf Hlast _.
  unfold objectives.RewardStd, objectives.RewardMean, objectives.last_entry.
  rewrite Hf, Hlast. cbn [snd].
  split; by rewrite lookup_insert_eq.
Qed.

(** X16: the two reward objectives compose in either order to the same effect:
    the training function runs once, its result is handed back unchanged,
    and the dictionary it left gains both keys, each holding the mean of
    the last evaluation, negated when the requested direction is not the
    objective's own. *)
Theorem reward_objectives_compose f (for_mean for_std : string) (args : Args)
  (d d1 : objectives.objectives_dict) (x : R) (tr : objectives.TrainResult)
  (row : list Qc) :
  f args d = (Ok (x, tr), d1) ->
  last (objectives.eval_rewards tr) = Some row ->
  let signed (own : string) (requested : string) :=
    if bool_decide (requested <> own)
    then (jnp.mean row * -(1))%Qc else jnp.mean row in
  let both :=
    <[objectives.RewardStd_KEY := signed "lower" for_std]>
      (<[objectives.RewardMean_KEY := signed "upper" for_mean]> d1) in
  objectives.RewardStd (objectives.RewardMean f for_mean) for_std args d
  = (Ok (x, tr), both)
  /\ objectives.RewardMean (objectives.RewardStd f for_std) for_mean args d
     = (Ok (x, tr), both).
Proof.
  intros Hf Hlast. cbn zeta.
  unfold objectives.RewardStd, objectives.RewardMean, objectives.last_entry.
  rewrite Hf. cbn beta iota. rewrite !Hlast. cbn beta iota. rewrite ?Hlast.
  split; [reflexivity|].
  f_equal. apply insert_insert_ne. discriminate.
Qed.

End ObjectiveFacts.

(** ** The further theorems at work on the stub *)

Lemma stub_uniform_in_range (k : nat) :
  (0 <= random.uniform (PRNG := Stub.prng) k)%Qc
  /\ (random.uniform (PRNG := Stub.prng) k < 1)%Qc.
Proof.
  cbn [random.uniform Stub.prng].
  pose proof (Nat.mod_upper_bound k 4 ltac:(lia)) as Hlt.
  destruct (k mod 4)%nat as [|[|[|[|m]]]]; [| | | |lia];
    split; by vm_compute.
Qed.

Lemma episode_reward_counts_unfinished_steps_witness :
  let rs0 := [Stub.frac 5 1; Stub.frac 3 1] in
  keeps_shape (E := Stub.two_clocks)
  /\ (0 < env.n_envs (Environment := Stub.two_clocks))%nat
  /\ Algorithm.ep_done
       (Algorithm.after_steps (E := Stub.two_clocks) (fun _ => 0%nat)
          Stub.greedy 4 rs0) !! 0%nat
     = Some (Evaluation.finished_before (E := Stub.two_clocks)
               (fun _ => 0%nat) Stub.greedy rs0 4 0)
  /\ Algorithm.ep_reward
       (Algorithm.after_steps (E := Stub.two_clocks) (fun _ => 0%nat)
          Stub.greedy 4 rs0) !! 0%nat
     = Some (Evaluation.counted_reward (E := Stub.two_clocks)
               (fun _ => 0%nat) Stub.greedy rs0 4 0)
  /\ Evaluation.counted_reward (E := Stub.two_clocks)
       (fun _ => 0%nat) Stub.greedy rs0 4 0
     = Stub.frac 2 1.
Proof.
  cbn zeta. split; [exact two_clocks_keeps_shape|].
  split; [cbn; lia|].
  destruct (episode_reward_counts_unfinished_steps (E := Stub.two_clocks)
              (fun _ => 0%nat) Stub.greedy two_clocks_keeps_shape
              [Stub.frac 5 1; Stub.frac 3 1] 0 4 ltac:(cbn; lia))
    as [Hdone Hreward].
  split; [exact Hdone|]. split; [exact Hreward|].
  apply Qc_is_canon. vm_compute. reflexivity.
Defined.

Lemma episode_returns_once_all_done_witness :
  let rs0 := [Stub.frac 5 1; Stub.frac 3 1] in
  jnp.all
    (Algorithm.ep_done
       (Algorithm.after_steps (E := Stub.two_clocks) (fun _ => 0%nat)
          Stub.greedy 3 rs0)) = true
  /\ Algorithm._env_episode (E := Stub.two_clocks) (fun _ => 0%nat)
       Stub.greedy 7 rs0
     = Some (rs0,
             Algorithm.ep_reward
               (Algorithm.after_steps (E := Stub.two_clocks) (fun _ => 0%nat)
                  Stub.greedy 3 rs0)).
Proof.
  cbn zeta. split; [reflexivity|].
  apply (proj1 (episode_returns_once_all_done (E := Stub.two_clocks)
                  (fun _ => 0%nat) Stub.greedy two_clocks_keeps_shape
                  [Stub.frac 5 1; Stub.frac 3 1] 3 7)).
  - reflexivity.
  - lia.
Defined.

Lemma eval_three_on_two_clocks :
  Evaluation.eval (E := Stub.two_clocks) (fun _ => 0%nat) Stub.greedy 5
    [Stub.frac 5 1; Stub.frac 3 1] 3
  = Evaluation.Returns [Stub.frac 2 1; Stub.frac 3 1; Stub.frac 2 1].
Proof. vm_compute. reflexivity. Qed.


Lemma eval_returns_requested_number_witness :
  keeps_shape (E := Stub.two_clocks)
  /\ (0 <= 3 <= 16777216)%Z
  /\ length [Stub.frac 2 1; Stub.frac 3 1; Stub.frac 2 1] = Z.to_nat 3.
Proof.
  split; [exact two_clocks_keeps_shape|]. split; [lia|].
  exact (eval_returns_requested_number (E := Stub.two_clocks)
           (fun _ => 0%nat) Stub.greedy two_clocks_keeps_shape 5
           [Stub.frac 5 1; Stub.frac 3 1] 3 _ ltac:(lia) ltac:(lia)
           eval_three_on_two_clocks).
Defined.

Lemma update_gate_of_aligned_counter_witness :
  let self := Stub.agent Stub.small_config in
  let g :=
    DQN.global_step
      (fst (fst (DQN._update_step (S := Stub.sampler (Discrete gymnax 2) 1)
                   Stub.power_1 self (Stub.rs_at 0, Stub.bs0)))) in
  (0 < DQN.train_frequency (DQN.hpo_config self))%Z
  /\ (DQN.global_step (Stub.rs_at 0)
      mod DQN.train_frequency (DQN.hpo_config self) = 0)%Z
  /\ (g mod DQN.train_frequency (DQN.hpo_config self) = 0)%Z
  /\ DQN.update_gate self g
     = (DQN.learning_starts (DQN.hpo_config self) <? g)%Z.
Proof.
  cbn zeta. split; [reflexivity|]. split; [reflexivity|].
  apply (update_gate_of_aligned_counter
           (S := Stub.sampler (Discrete gymnax 2) 1) Stub.power_1
           (Stub.agent Stub.small_config) (Stub.rs_at 0) Stub.bs0);
    first [reflexivity | cbn; lia].
Defined.

Lemma step_counts_updates_after_warm_up_witness :
  let self := Stub.agent Stub.small_config in
  DQN.global_step (Stub.rs_at 0) = 0%Z
  /\ DQN.step
       (DQN.train_state
          (fst (fst (scan
             (DQN._update_step (S := Stub.sampler (Discrete gymnax 2) 1)
                Stub.power_1 self)
             (Stub.rs_at 0, Stub.bs0) 3))))
     = (0 + Z.max 0 (Z.of_nat 3 - 1 / (2 * Z.of_nat 1)))%Z.
Proof.
  cbn zeta. split; [reflexivity|].
  apply (step_counts_updates_after_warm_up
           (S := Stub.sampler (Discrete gymnax 2) 1) Stub.power_1
           (Stub.agent Stub.small_config) (Stub.rs_at 0) Stub.bs0 3);
    cbn; lia.
Defined.

Lemma train_stays_within_budget_witness :
  let self := Stub.agent Stub.small_config in
  let spent :=
    (DQN.global_step
       (fst (fst (DQN.train (S := Stub.sampler (Discrete gymnax 2) 1)
                    Stub.power_1 self (Stub.rs_at 0) Stub.bs0)))
     - DQN.global_step (Stub.rs_at 0))%Z in
  (0 <= DQN.n_total_timesteps (DQN.env_options self))%Z
  /\ (spent <= 8 /\ 8 - 2 * Z.of_nat 1 < spent)%Z.
Proof.
  cbn zeta. split; [cbn; lia|].
  apply (train_stays_within_budget
           (S := Stub.sampler (Discrete gymnax 2) 1) Stub.power_1
           (Stub.agent Stub.small_config) (Stub.rs_at 0) Stub.bs0);
    cbn; lia.
Defined.

Lemma exploration_rate_extremes_witness :
  let self := Stub.agent Stub.small_config in
  DQN.epsilon (DQN.hpo_config self) = 0%Qc
  /\ Forall (fun y => DQN.out_action y
                      = map jnp.argmax
                          (DQN.apply self
                             (DQN.params (DQN.train_state (Stub.rs_at 0)))
                             (DQN.obs (Stub.rs_at 0))))
       (snd (DQN.rollout Stub.power_1 self (Stub.rs_at 0) Stub.bs0)).
Proof.
  cbn zeta. split; [reflexivity|].
  apply (proj1 (exploration_rate_extremes Stub.power_1
                  (Stub.agent Stub.small_config) (Stub.rs_at 0) Stub.bs0
                  stub_uniform_in_range)).
  reflexivity.
Defined.

Lemma predict_is_first_best_action_witness :
  let self := Stub.agent Stub.small_config in
  let row := DQN.network self [Stub.frac 3 1; Stub.frac 5 1] 0%nat in
  row <> []
  /\ exists a,
       DQN.predict self [Stub.frac 3 1; Stub.frac 5 1] [0%nat] 0%nat !! 0%nat
       = Some a
       /\ row !! a = Some (jnp.max row)
       /\ (forall j x, row !! j = Some x -> (x <= jnp.max row)%Qc)
       /\ (forall j x, (j < a)%nat -> row !! j = Some x -> (x < jnp.max row)%Qc).
Proof.
  cbn zeta. split; [discriminate|].
  apply (predict_is_first_best_action (E := Stub.one_clock)
           (Stub.agent Stub.small_config) [Stub.frac 3 1; Stub.frac 5 1]
           [0%nat] 0%nat 0%nat 0%nat); [reflexivity | discriminate].
Defined.

Lemma update_on_terminal_batch_witness :
  let self := Stub.agent Stub.small_config in
  let result :=
    DQN.update self Stub.ts0 [0%nat] [0%nat] [1%nat] [1%Qc] [true] in
  Forall (fun d => d = true) [true]
  /\ snd (fst (fst result))
     = jnp.gather_rows (DQN.apply self (DQN.params Stub.ts0) [0%nat]) [0%nat]
  /\ snd (fst (fst (fst result)))
     = jnp.mean (jnp.square (jnp.sub (snd (fst (fst result))) [1%Qc])).
Proof.
  cbn zeta. split; [by repeat constructor|].
  apply (update_on_terminal_batch (Stub.agent Stub.small_config) Stub.ts0
           [0%nat] [0%nat] [1%nat] [1%Qc] [true]);
    [by repeat constructor | reflexivity | reflexivity].
Defined.

Lemma fresh_parameters_coincide_witness :
  exists rs bs,
    Setup.init (I := StubMore.initialisers Stub.one_clock)
      (Stub.agent Stub.small_config) 0%nat None None None None
    = Ok (rs, bs)
    /\ DQN.target_params (DQN.train_state rs)
       = DQN.params (DQN.train_state rs).
Proof.
  eexists _, _. split; [reflexivity|].
  eapply (fresh_parameters_coincide (I := StubMore.initialisers Stub.one_clock)
            (Stub.agent Stub.small_config) 0%nat None None).
  reflexivity.
Defined.

Lemma init_resets_counters_witness :
  exists rs bs,
    Setup.init (I := StubMore.initialisers Stub.one_clock)
      (Stub.agent Stub.small_config) 0%nat (Some Stub.bs0)
      (Some [Stub.frac 5 1; Stub.frac 3 1]) None None
    = Ok (rs, bs)
    /\ DQN.global_step rs = 0%Z
    /\ bs = Stub.bs0
    /\ DQN.params (DQN.train_state rs) = [Stub.frac 5 1; Stub.frac 3 1].
Proof.
  eexists _, _. split; [reflexivity|].
  edestruct (init_resets_counters_and_keeps_what_it_is_given
               (I := StubMore.initialisers Stub.one_clock)
               (Stub.agent Stub.small_config) 0%nat (Some Stub.bs0)
               (Some [Stub.frac 5 1; Stub.frac 3 1]) None None)
    as (Hstep & _ & Hbuffer & Hparams & _); [reflexivity|].
  split; [exact Hstep|]. split; [by apply Hbuffer | by apply Hparams].
Defined.

Lemma reward_std_records_the_mean_witness :
  let row := [Stub.frac 2 1; Stub.frac 3 1] in
  row <> []
  /\ snd (objectives.RewardStd StubMore.trained "lower" tt ∅)
     !! objectives.RewardStd_KEY
     = Some (jnp.mean row)
  /\ snd (objectives.RewardMean StubMore.trained "upper" tt ∅)
     !! objectives.RewardMean_KEY
     = Some (jnp.mean row).
Proof.
  cbn zeta. split; [discriminate|].
  eapply (reward_std_records_the_mean StubMore.trained tt ∅);
    [reflexivity | reflexivity | discriminate].
Defined.

Lemma reward_objectives_compose_witness :
  let mean := jnp.mean [Stub.frac 2 1; Stub.frac 3 1] in
  fst (objectives.RewardStd
         (objectives.RewardMean StubMore.trained "lower") "lower" tt ∅)
  = fst (StubMore.trained tt ∅)
  /\ snd (objectives.RewardStd
            (objectives.RewardMean StubMore.trained "lower") "lower" tt ∅)
     = <[objectives.RewardStd_KEY := mean]>
         (<[objectives.RewardMean_KEY := (mean * -(1))%Qc]>
            (snd (StubMore.trained tt ∅))).
Proof.
  cbn zeta.
  edestruct (reward_objectives_compose StubMore.trained "lower" "lower" tt ∅)
    as [Hboth _]; [reflexivity | reflexivity |].
  rewrite Hboth. split; reflexivity.
Defined.
